(** * The swap pipeline of plugin-lightlink

    A shallow embedding of [packages/plugin-lightlink/src/actions/swap.ts]
    ([SwapAction.swap], [getQuote], [executeSwap]) together with the types
    of [src/types/index.ts] it uses.

    - JavaScript values are modelled as they are at run time: [number] is
      an IEEE-754 binary64 float ([spec_float] with precision 53 and
      exponent bound 1024), [bigint] is [Z], strings (addresses, hashes,
      hex data) are [string], [undefined] is [None] or [VUndefined].
    - Exceptions are explicit: every step returns a [result].
    - The external collaborators are interfaces.  The functions imported
      from viem are the methods of the class [Viem]; the wallet provider
      and the two RPC clients are the record [Env] of oracles.  Each oracle
      sees the history of the calls made so far, so an environment may
      answer the same request differently at different times.
    - Every call that leaves the function is recorded in a trace, newest
      first, which is what the ordering statements below talk about. *)

From Stdlib Require Import ZArith List String Ascii Bool Lia.
From Stdlib Require Import SpecFloat.
Import ListNotations.

#[local] Set Warnings "-register-all".

Local Open Scope string_scope.
Local Open Scope Z_scope.

(* ================================================================== *)
(** ** JavaScript values, numbers and exceptions *)
(* ================================================================== *)

(** What a [throw] carries.  [Error] is [new Error(message)];
    [LibraryError] stands for whatever viem, the RPC transport or the
    wallet provider raise. *)
Inductive Exception : Type :=
| RangeError (message : string)
| TypeError (message : string)
| Error (message : string)
| LibraryError (name : string).

Inductive result (A : Type) : Type :=
| Ok (a : A)
| Throw (e : Exception).
Arguments Ok {A} a.
Arguments Throw {A} e.

(** A JavaScript [number]. *)
Definition Number : Type := spec_float.

Definition Number_mul : Number -> Number -> Number := SFmul 53 1024.

(** The [number] denoted by an integer literal such as [10_000]. *)
Definition Number_of_Z (z : Z) : Number := binary_normalize 53 1024 z 0 false.

(** The mathematical value of a [number] when that value is an integer
    (ECMAScript IsIntegralNumber followed by the conversion to an
    integer); [None] for NaN, the infinities and fractional values. *)
Definition Number_to_integer (x : Number) : option Z :=
  match x with
  | S754_zero _ => Some 0
  | S754_finite s m e =>
      if 0 <=? e then Some (cond_Zopp s (Zpos m * 2 ^ e))
      else if (Zpos m) mod 2 ^ (- e) =? 0
           then Some (cond_Zopp s (Zpos m / 2 ^ (- e)))
           else None
  | S754_infinity _ | S754_nan => None
  end.

(** [BigInt(x)] applied to a [number]. *)
Definition BigInt_of_Number (x : Number) : result Z :=
  match Number_to_integer x with
  | Some z => Ok z
  | None =>
      Throw (RangeError
        "The number cannot be converted to a BigInt because it is not an integer")
  end.

(** Exact comparisons of a [number] with 0 and 1, on its mathematical
    value ([-0] is 0; NaN compares with nothing). *)
Definition Number_is_negative (x : Number) : bool :=
  match x with
  | S754_finite true _ _ | S754_infinity true => true
  | _ => false
  end.

Definition Number_exceeds_one (x : Number) : bool :=
  match x with
  | S754_infinity false => true
  | S754_finite false m e =>
      if 0 <=? e then 1 <? Zpos m * 2 ^ e else 2 ^ (- e) <? Zpos m
  | _ => false
  end.

(** [0 <= x <= 1]. *)
Definition Number_in_unit_interval (x : Number) : bool :=
  match x with
  | S754_zero _ => true
  | S754_finite false _ _ => negb (Number_exceeds_one x)
  | _ => false
  end.


(** The values handed to and returned by the ABI coders. *)
Inductive Value : Type :=
| VUndefined
| VBool (b : bool)
| VNumber (n : Number)
| VBigInt (z : Z)
| VString (s : string)
| VArray (items : list Value)
| VObject (fields : list (string * Value)).

(** An operand of bigint arithmetic: anything that is not a bigint makes
    [*], [-] and [/] with a bigint throw. *)
Definition asBigInt (v : Value) : result Z :=
  match v with
  | VBigInt z => Ok z
  | _ => Throw (TypeError "Cannot mix BigInt and other types, use explicit conversions")
  end.

(** An optional string as a value. *)
Definition Value_of_optional (a : option string) : Value :=
  match a with
  | Some s => VString s
  | None => VUndefined
  end.

(* ================================================================== *)
(** ** Types of [src/types/index.ts] and of viem that the swap touches *)
(* ================================================================== *)

Definition Address : Type := string.
Definition Hash : Type := string.
Definition Hex : Type := string.
Definition SupportedChain : Type := string.

Record SwapParams : Type := {
  chain : SupportedChain;
  fromToken : Address;
  toToken : Address;
  amount : string;
  slippage : option Number
}.

Record SwapTransaction : Type := {
  hash : Hash;
  tx_fromToken : Address;
  tx_toToken : Address;
  amountIn : Z;
  minAmountOut : Z;
  recipient : option Address
}.

Record ChainContract : Type := { address : Address }.

Record ChainContracts : Type := {
  uniswapV3Quoter : option ChainContract;
  universalRouter : option ChainContract
}.

Record Chain : Type := {
  id : Z;
  name : string;
  contracts : option ChainContracts
}.

(** Handles of the two RPC clients of a chain. *)
Record PublicClient : Type := { publicClientOf : SupportedChain }.
Record WalletClient : Type := { walletClientOf : SupportedChain }.

Record CallParameters : Type := { call_to : Address; call_data : Hex }.
Record CallReturnType : Type := { data : option Hex }.

(** The request of [sendTransaction]; the [kzg] stub of the source takes
    no part in ordinary transactions and is left out. *)
Record SendTransactionParameters : Type := {
  send_chain : Chain;
  send_account : option Address;
  send_to : Address;
  send_data : Hex
}.

Record TransactionReceipt : Type := { status : string }.

(** One entry of an ABI: [{internalType, name, type, components}]. *)
Inductive AbiParameter : Type :=
| abiParameter (internalType : option string) (name type : string)
               (components : list AbiParameter).

Definition abi_name (p : AbiParameter) : string :=
  match p with abiParameter _ n _ _ => n end.
Definition abi_type (p : AbiParameter) : string :=
  match p with abiParameter _ _ t _ => t end.

Record AbiFunction : Type := {
  inputs : list AbiParameter;
  fn_name : string;
  outputs : list AbiParameter;
  stateMutability : string
}.

Definition Abi : Type := list AbiFunction.

(** The result of [getQuote]. *)
Record Quote : Type := {
  amountOut : Value;
  sqrtPriceX96After : Value;
  initializedTicksCrossed : Value;
  gasEstimate : Value
}.

(* ================================================================== *)
(** ** The outside world *)
(* ================================================================== *)

(** The functions the source imports from viem.  All of them are pure
    and all of them may throw. *)
Class Viem : Type := {
  parseEther : string -> result Z;
  encodeFunctionData : Abi -> string -> list Value -> result Hex;
  decodeFunctionResult : Abi -> string -> option Hex -> result (list Value);
  encodeAbiParameters : list AbiParameter -> list Value -> result Hex;
  encodePacked : list string -> list Value -> result Hex
}.

(** The calls that leave [swap]. *)
Inductive Event : Type :=
| EvSwitchChain (c : SupportedChain)
| EvGetPublicClient (c : SupportedChain)
| EvGetWalletClient (c : SupportedChain)
| EvGetChainConfigs (c : SupportedChain)
| EvGetAddresses (w : WalletClient)
| EvCall (pc : PublicClient) (req : CallParameters)
| EvSendTransaction (w : WalletClient) (req : SendTransactionParameters)
| EvWaitForTransactionReceipt (pc : PublicClient) (h : Hash).

(** Newest event first. *)
Definition Trace : Type := list Event.

(** The wallet provider ([wp_]), the public client ([pc_]) and the wallet
    client ([wc_]).  The first argument is the history at the time of the
    call. *)
Record Env : Type := {
  wp_switchChain : Trace -> SupportedChain -> result unit;
  wp_getPublicClient : Trace -> SupportedChain -> result PublicClient;
  wp_getWalletClient : Trace -> SupportedChain -> result WalletClient;
  wp_getChainConfigs : Trace -> SupportedChain -> result Chain;
  wc_getAddresses : Trace -> WalletClient -> result (list Address);
  pc_call : Trace -> PublicClient -> CallParameters -> result CallReturnType;
  wc_sendTransaction :
    Trace -> WalletClient -> SendTransactionParameters -> result Hash;
  pc_waitForTransactionReceipt :
    Trace -> PublicClient -> Hash -> result (option TransactionReceipt)
}.

(* ================================================================== *)
(** ** The monad of the pipeline: environment, trace, exceptions *)
(* ================================================================== *)

Definition M (A : Type) : Type := Env -> Trace -> result A * Trace.

Definition ret {A : Type} (a : A) : M A := fun _ t => (Ok a, t).

Definition throw {A : Type} (e : Exception) : M A := fun _ t => (Throw e, t).

Definition bind {A B : Type} (c : M A) (k : A -> M B) : M B :=
  fun env t =>
    match c env t with
    | (Ok a, t') => k a env t'
    | (Throw e, t') => (Throw e, t')
    end.

(** A pure step that may throw. *)
Definition lift {A : Type} (r : result A) : M A := fun _ t => (r, t).

(** A call to the outside: the oracle answers from the history, and the
    call is recorded whether it succeeds or throws. *)
Definition external {A : Type} (ev : Event) (oracle : Env -> Trace -> result A)
  : M A :=
  fun env t => (oracle env t, ev :: t).

Declare Scope swap_scope.
Delimit Scope swap_scope with swap.
Notation "x <- c ;; k" := (bind c (fun x => k))
  (at level 61, c at next level, right associativity) : swap_scope.
Notation "c ;;; k" := (bind c (fun _ => k))
  (at level 61, right associativity) : swap_scope.
Local Open Scope swap_scope.

(** Reading a property of a value that may be [undefined]. *)
Definition read_property {A B : Type} (prop : string) (o : option A) (f : A -> B)
  : result B :=
  match o with
  | Some a => Ok (f a)
  | None =>
      Throw (TypeError ("Cannot read properties of undefined (reading '"
                        ++ prop ++ "')")%string)
  end.

(* ================================================================== *)
(** ** [actions/swap.ts] *)
(* ================================================================== *)

Definition quoterAbi : Abi :=
  [ {| inputs :=
         [ abiParameter (Some "struct IQuoterV2.QuoteExactInputSingleParams")
             "params" "tuple"
             [ abiParameter (Some "address") "tokenIn" "address" [];
               abiParameter (Some "address") "tokenOut" "address" [];
               abiParameter (Some "uint256") "amountIn" "uint256" [];
               abiParameter (Some "uint24") "fee" "uint24" [];
               abiParameter (Some "uint160") "sqrtPriceLimitX96" "uint160" [] ] ];
       fn_name := "quoteExactInputSingle";
       outputs :=
         [ abiParameter (Some "uint256") "amountOut" "uint256" [];
           abiParameter (Some "uint160") "sqrtPriceX96After" "uint160" [];
           abiParameter (Some "uint32") "initializedTicksCrossed" "uint32" [];
           abiParameter (Some "uint256") "gasEstimate" "uint256" [] ];
       stateMutability := "nonpayable" |} ].

(** The ABI literal inside [executeSwap]. *)
Definition executeAbi : Abi :=
  [ {| inputs := [ abiParameter None "commands" "bytes" [];
                   abiParameter None "inputs" "bytes[]" [] ];
       fn_name := "execute";
       outputs := [];
       stateMutability := "payable" |} ].

(** The parameter list given to [encodeAbiParameters] in [executeSwap]. *)
Definition swapInputParameters : list AbiParameter :=
  [ abiParameter None "recipient" "address" [];
    abiParameter None "amountIn" "uint256" [];
    abiParameter None "amountOutMin" "uint256" [];
    abiParameter None "path" "bytes" [];
    abiParameter None "payerIsUser" "bool" [] ].

Definition SWAP_EXACT_IN : Hex := "0x00".

(** The fee tier literal [3000] of [swap]. *)
Definition feeTier : Number := Number_of_Z 3000.

Section Pipeline.
Context {viem : Viem}.

(** The single argument of [quoteExactInputSingle] built by [getQuote]
    (lines 387-395 of the source). *)
Definition quoteArgs (fromToken toToken : string) (amountIn : Z) (fee : Number)
  : list Value :=
  [ VObject [ ("tokenIn", VString fromToken);
              ("tokenOut", VString toToken);
              ("amountIn", VBigInt amountIn);
              ("fee", VNumber fee);
              ("sqrtPriceLimitX96", VBigInt 0) ] ].

Definition getQuote (client : PublicClient) (quoterContractAddress : string)
           (fromToken toToken : string) (amountIn : Z) (fee : Number)
  : M Quote :=
  encodedData <- lift (encodeFunctionData quoterAbi "quoteExactInputSingle"
                         (quoteArgs fromToken toToken amountIn fee)) ;;
  response <- external
      (EvCall client {| call_to := quoterContractAddress;
                        call_data := encodedData |})
      (fun env t => pc_call env t client
                      {| call_to := quoterContractAddress;
                         call_data := encodedData |}) ;;
  result <- lift (decodeFunctionResult quoterAbi "quoteExactInputSingle"
                    (data response)) ;;
  ret {| amountOut := nth 0 result VUndefined;
         sqrtPriceX96After := nth 1 result VUndefined;
         initializedTicksCrossed := nth 2 result VUndefined;
         gasEstimate := nth 3 result VUndefined |}.

(** The pure part of [executeSwap]: path, swap input, call data
    (lines 440-471). *)
Definition routerCallData (fromAddress : option Address)
           (fromToken toToken : Address) (amountIn amountOutMin : Z)
           (fee : Number) : result Hex :=
  match encodePacked ["address"; "uint24"; "address"]
                     [VString fromToken; VNumber fee; VString toToken] with
  | Throw e => Throw e
  | Ok v3SwapRoute =>
      match encodeAbiParameters swapInputParameters
              [ Value_of_optional fromAddress; VBigInt amountIn;
                VBigInt amountOutMin; VString v3SwapRoute; VBool true ] with
      | Throw e => Throw e
      | Ok inputs =>
          encodeFunctionData executeAbi "execute"
            [ VString SWAP_EXACT_IN; VArray [ VString inputs ] ]
      end
  end.

Definition executeSwap (chain : Chain) (client : WalletClient)
           (universalRouter : Address) (fromToken toToken : Address)
           (amountIn amountOutMin : Z) (fee : Number) : M Hash :=
  addresses <- external (EvGetAddresses client)
                 (fun env t => wc_getAddresses env t client) ;;
  let fromAddress := hd_error addresses in
  callData <- lift (routerCallData fromAddress fromToken toToken
                      amountIn amountOutMin fee) ;;
  let request := {| send_chain := chain;
                    send_account := fromAddress;
                    send_to := universalRouter;
                    send_data := callData |} in
  external (EvSendTransaction client request)
    (fun env t => wc_sendTransaction env t client request).

(** [params.slippage * 10_000]; a missing slippage is [undefined], and
    [undefined * 10_000] is NaN. *)
Definition slippageProduct (s : option Number) : Number :=
  match s with
  | Some x => Number_mul x (Number_of_Z 10000)
  | None => S754_nan
  end.

(** [quote.amountOut - (quote.amountOut * slippageBP) / BigInt(100_000)];
    bigint division truncates towards zero. *)
Definition minimumAmountOut (quotedAmountOut : Value) (slippageBP : Z)
  : result Z :=
  match asBigInt quotedAmountOut with
  | Ok q => Ok (q - Z.quot (q * slippageBP) 100000)
  | Throw e => Throw e
  end.

(** [!receipt?.status || receipt!.status === "reverted"]. *)
Definition receiptFailed (receipt : option TransactionReceipt) : bool :=
  match receipt with
  | None => true
  | Some r => (status r =? "")%string || (status r =? "reverted")%string
  end.

Definition swap (params : SwapParams) : M SwapTransaction :=
  external (EvSwitchChain (chain params))
    (fun env t => wp_switchChain env t (chain params)) ;;;
  publicClient <- external (EvGetPublicClient (chain params))
                    (fun env t => wp_getPublicClient env t (chain params)) ;;
  walletClient <- external (EvGetWalletClient (chain params))
                    (fun env t => wp_getWalletClient env t (chain params)) ;;
  chainConfig <- external (EvGetChainConfigs (chain params))
                   (fun env t => wp_getChainConfigs env t (chain params)) ;;
  addresses <- external (EvGetAddresses walletClient)
                 (fun env t => wc_getAddresses env t walletClient) ;;
  let fromAddress := hd_error addresses in
  quoter <- lift (read_property "uniswapV3Quoter" (contracts chainConfig)
                    uniswapV3Quoter) ;;
  router <- lift (read_property "universalRouter" (contracts chainConfig)
                    universalRouter) ;;
  (* 1. Get the quote *)
  quoterAddress <- lift (read_property "address" quoter address) ;;
  quoteAmountIn <- lift (parseEther (amount params)) ;;
  quote <- getQuote publicClient quoterAddress (fromToken params)
             (toToken params) quoteAmountIn feeTier ;;
  (* 2. calculate the minimum amount out *)
  slippageBP <- lift (BigInt_of_Number (slippageProduct (slippage params))) ;;
  minOut <- lift (minimumAmountOut (amountOut quote) slippageBP) ;;
  (* 3. execute the swap *)
  routerAddress <- lift (read_property "address" router address) ;;
  swapAmountIn <- lift (parseEther (amount params)) ;;
  tx <- executeSwap chainConfig walletClient routerAddress (fromToken params)
          (toToken params) swapAmountIn minOut feeTier ;;
  receipt <- external (EvWaitForTransactionReceipt publicClient tx)
               (fun env t => pc_waitForTransactionReceipt env t publicClient tx) ;;
  if receiptFailed receipt then throw (Error "Transaction failed")
  else
    reportedAmountIn <- lift (parseEther (amount params)) ;;
    ret {| hash := tx;
           tx_fromToken := fromToken params;
           tx_toToken := toToken params;
           amountIn := reportedAmountIn;
           minAmountOut := minOut;
           recipient := fromAddress |}.

(** A run of [swap] (lines 186-242) from the empty history. *)
Definition run_swap (env : Env) (params : SwapParams)
  : result SwapTransaction * Trace :=
  swap params env [].

End Pipeline.

(* ================================================================== *)
(** ** Reading a trace *)
(* ================================================================== *)

(** The requests of the submissions and of the quote fetches in a trace. *)
Fixpoint submissions (tr : Trace) : list SendTransactionParameters :=
  match tr with
  | [] => []
  | EvSendTransaction _ req :: pre => req :: submissions pre
  | _ :: pre => submissions pre
  end.

Fixpoint quote_requests (tr : Trace) : list CallParameters :=
  match tr with
  | [] => []
  | EvCall _ req :: pre => req :: quote_requests pre
  | _ :: pre => quote_requests pre
  end.

(** What the environment answered to the read call of the trace, if the
    call was made. *)
Fixpoint quote_response (env : Env) (tr : Trace) : option (result CallReturnType) :=
  match tr with
  | [] => None
  | EvCall pc req :: pre => Some (pc_call env pre pc req)
  | _ :: pre => quote_response env pre
  end.

(** What the awaited receipt was, if a receipt was awaited. *)
Fixpoint awaited_receipt (env : Env) (tr : Trace)
  : option (result (option TransactionReceipt)) :=
  match tr with
  | [] => None
  | EvWaitForTransactionReceipt pc h :: pre =>
      Some (pc_waitForTransactionReceipt env pre pc h)
  | _ :: pre => awaited_receipt env pre
  end.

(** The chain metadata the provider returned, if it was asked. *)
Fixpoint resolved_chain (env : Env) (tr : Trace) : option (result Chain) :=
  match tr with
  | [] => None
  | EvGetChainConfigs c :: pre => Some (wp_getChainConfigs env pre c)
  | _ :: pre => resolved_chain env pre
  end.

(** The answers of the wallet client to [getAddresses], newest first. *)
Fixpoint address_answers (env : Env) (tr : Trace) : list (result (list Address)) :=
  match tr with
  | [] => []
  | EvGetAddresses w :: pre => wc_getAddresses env pre w :: address_answers env pre
  | _ :: pre => address_answers env pre
  end.

(** The first address of an answer of [getAddresses]. *)
Definition first_address (answer : result (list Address)) : option Address :=
  match answer with
  | Ok l => hd_error l
  | Throw _ => None
  end.

Section TraceQueries.
Context {viem : Viem}.

(** The outcome of the quote fetch of a trace: the decoded outputs, or
    the exception of the read call or of the decoder. *)
Definition quote_outcome (env : Env) (tr : Trace) : option (result (list Value)) :=
  match quote_response env tr with
  | None => None
  | Some (Throw e) => Some (Throw e)
  | Some (Ok response) =>
      Some (decodeFunctionResult quoterAbi "quoteExactInputSingle" (data response))
  end.

(** The [amountOut] of the quote of a trace. *)
Definition quoted_amount (env : Env) (tr : Trace) : option Value :=
  match quote_outcome env tr with
  | Some (Ok outputs) => Some (nth 0 outputs VUndefined)
  | _ => None
  end.

End TraceQueries.

(** The number of bytes a hex string such as ["0x00"] denotes. *)
Definition Hex_size (h : Hex) : Z := (Z.of_nat (String.length h) - 2) / 2.

(** The spec's name for the failure of line 231 of the source. *)
Definition ExecutionRevertedError : Exception := Error "Transaction failed".

(* ================================================================== *)
(** ** The minimum output as the specification words it *)
(* ================================================================== *)

(** [round(x * c)] on the mathematical value of [x], ties upwards. *)
Definition Number_scale_round (x : Number) (c : Z) : option Z :=
  match x with
  | S754_zero _ => Some 0
  | S754_finite s m e =>
      let v := cond_Zopp s (Zpos m) * c in
      if 0 <=? e then Some (v * 2 ^ e)
      else Some ((2 * v + 2 ^ (- e)) / 2 ^ (1 - e))
  | S754_infinity _ | S754_nan => None
  end.

(** [q - floor(q * round(s * 10000) / 100000)]. *)
Definition spec_minAmountOut (q : Z) (s : Number) : option Z :=
  match Number_scale_round s 10000 with
  | Some bp => Some (q - (q * bp) / 100000)
  | None => None
  end.

(** Step 2 of [swap] in one piece: the minimum output as a function of
    the quoted amount and of the slippage of the request. *)
Definition slippageAdjustedMinimum (quotedAmountOut : Value) (s : option Number)
  : result Z :=
  match BigInt_of_Number (slippageProduct s) with
  | Ok slippageBP => minimumAmountOut quotedAmountOut slippageBP
  | Throw e => Throw e
  end.


(** The quoter and router entries of the metadata of a chain, when the
    metadata has them. *)
Definition quoter_of (c : Chain) : option ChainContract :=
  match contracts c with
  | Some cs => uniswapV3Quoter cs
  | None => None
  end.

Definition router_of (c : Chain) : option ChainContract :=
  match contracts c with
  | Some cs => universalRouter cs
  | None => None
  end.

(* ================================================================== *)
(** ** A stand-in library and environment, to run the pipeline *)
(* ================================================================== *)

(** The doubles below play the part of viem and of the chain when the
    pipeline is evaluated on concrete inputs.  [parseEther] is the real
    conversion for unsigned decimals of at most 18 fractional digits; the
    coders print their arguments instead of laying out ABI words, and the
    decoder reads the quoted amount as a decimal numeral. *)
Module Demo.

Definition digit (c : ascii) : option Z :=
  let n := Z.of_nat (nat_of_ascii c) in
  if (48 <=? n) && (n <=? 57) then Some (n - 48) else None.

(** Digits up to an optional point: the value read and what follows the
    point. *)
Fixpoint digits (s : string) (acc : Z) : option (Z * option string) :=
  match s with
  | EmptyString => Some (acc, None)
  | String c rest =>
      if Ascii.eqb c "."%char then Some (acc, Some rest)
      else match digit c with
           | Some d => digits rest (10 * acc + d)
           | None => None
           end
  end.

Definition demo_parseEther (s : string) : result Z :=
  match digits s 0 with
  | Some (whole, None) => Ok (whole * 10 ^ 18)
  | Some (whole, Some fraction) =>
      match digits fraction 0 with
      | Some (f, None) =>
          let n := Z.of_nat (String.length fraction) in
          if n <=? 18 then Ok (whole * 10 ^ 18 + f * 10 ^ (18 - n))
          else Throw (LibraryError "fraction longer than 18 digits")
      | _ => Throw (LibraryError "InvalidDecimalNumberError")
      end
  | None => Throw (LibraryError "InvalidDecimalNumberError")
  end.

Fixpoint show_digits (fuel : nat) (n : Z) (acc : string) : string :=
  match fuel with
  | O => acc
  | S fuel' =>
      if n =? 0 then acc
      else show_digits fuel' (n / 10)
             (String (ascii_of_nat (Z.to_nat (48 + n mod 10))) acc)
  end.

Definition show_Z (z : Z) : string :=
  match z with
  | Z0 => "0"
  | Zpos _ => show_digits (Z.to_nat (Z.log2 z) + 1) z ""
  | Zneg p => String "-"%char (show_digits (Z.to_nat (Z.log2 (Zpos p)) + 1) (Zpos p) "")
  end.

Definition show_Number (x : Number) : string :=
  match Number_to_integer x with
  | Some z => show_Z z
  | None => "NaN"
  end.

Fixpoint show (v : Value) : string :=
  (match v with
   | VUndefined => "undefined"
   | VBool true => "true"
   | VBool false => "false"
   | VNumber n => show_Number n
   | VBigInt z => show_Z z ++ "n"
   | VString s => s
   | VArray items =>
       "[" ++ fold_right (fun item acc => show item ++ "," ++ acc) "" items ++ "]"
   | VObject fields =>
       "{" ++ fold_right (fun field acc =>
                            match field with
                            | (key, item) => key ++ ":" ++ show item ++ "," ++ acc
                            end) "" fields ++ "}"
   end)%string.

Definition demo_coder (tag : string) (args : list Value) : result Hex :=
  Ok (tag ++ show (VArray args))%string.

Definition demo_decode (response : option Hex) : result (list Value) :=
  match response with
  | None => Throw (LibraryError "AbiDecodingZeroDataError")
  | Some d =>
      match digits d 0 with
      | Some (q, None) =>
          Ok [VBigInt q; VBigInt 0; VNumber (Number_of_Z 0); VBigInt 0]
      | _ => Throw (LibraryError "AbiDecodingDataSizeTooSmallError")
      end
  end.

Definition demoViem : Viem := {|
  parseEther := demo_parseEther;
  encodeFunctionData := fun _ functionName args => demo_coder functionName args;
  decodeFunctionResult := fun _ _ response => demo_decode response;
  encodeAbiParameters := fun _ args => demo_coder "abi" args;
  encodePacked := fun _ args => demo_coder "packed" args
|}.

(** An environment whose answers do not depend on the history. *)
Definition constEnv (config : result Chain) (accounts : result (list Address))
           (quoted : result CallReturnType) (sent : result Hash)
           (receipt : result (option TransactionReceipt)) : Env := {|
  wp_switchChain := fun _ _ => Ok tt;
  wp_getPublicClient := fun _ c => Ok {| publicClientOf := c |};
  wp_getWalletClient := fun _ c => Ok {| walletClientOf := c |};
  wp_getChainConfigs := fun _ _ => config;
  wc_getAddresses := fun _ _ => accounts;
  pc_call := fun _ _ _ => quoted;
  wc_sendTransaction := fun _ _ _ => sent;
  pc_waitForTransactionReceipt := fun _ _ _ => receipt
|}.

Definition quoterContract : ChainContract := {| address := "0xQUOTER" |}.
Definition routerContract : ChainContract := {| address := "0xROUTER" |}.

Definition lightlink (quoter router : option ChainContract) : Chain :=
  {| id := 1890; name := "lightlink";
     contracts := Some {| uniswapV3Quoter := quoter; universalRouter := router |} |}.

(** A chain with both contracts, one account, a quote of [1_000_000], a
    submission that is accepted and a receipt with the given status. *)
Definition healthyEnv (receiptStatus : string) : Env :=
  constEnv (Ok (lightlink (Some quoterContract) (Some routerContract)))
           (Ok ["0xALICE"])
           (Ok {| data := Some "1000000" |})
           (Ok "0xHASH")
           (Ok (Some {| status := receiptStatus |})).

(** The same chain without its router entry. *)
Definition routerlessEnv : Env :=
  constEnv (Ok (lightlink (Some quoterContract) None))
           (Ok ["0xALICE"])
           (Ok {| data := Some "1000000" |})
           (Ok "0xHASH")
           (Ok (Some {| status := "success" |})).

(** The same chain without its quoter entry. *)
Definition quoterlessEnv : Env :=
  constEnv (Ok (lightlink None (Some routerContract)))
           (Ok ["0xALICE"])
           (Ok {| data := Some "1000000" |})
           (Ok "0xHASH")
           (Ok (Some {| status := "success" |})).

(** A chain on which the quoter call reverts. *)
Definition revertingQuoteEnv : Env :=
  constEnv (Ok (lightlink (Some quoterContract) (Some routerContract)))
           (Ok ["0xALICE"])
           (Throw (LibraryError "CallExecutionError"))
           (Ok "0xHASH")
           (Ok (Some {| status := "success" |})).

(** The [number]s 0.01, 0.07 and 2 as binary64 values. *)
Definition one_percent : Number := S754_finite false 5764607523034235 (-59).
Definition seven_percent : Number := S754_finite false 5044031582654956 (-56).

Definition request (s : option Number) : SwapParams :=
  {| chain := "lightlink"; fromToken := "0xWETH"; toToken := "0xUSDC";
     amount := "1.0"; slippage := s |}.

(** [swap] with the stand-in library. *)
Definition run (env : Env) (params : SwapParams)
  : result SwapTransaction * Trace :=
  run_swap (viem := demoViem) env params.

End Demo.

(* ================================================================== *)
(** ** The order of the calls and their failures *)
(* ================================================================== *)

(** The kind of a call, without its arguments. *)
Inductive Step : Type :=
| StepSwitchChain
| StepGetPublicClient
| StepGetWalletClient
| StepGetChainConfigs
| StepGetAddresses
| StepCall
| StepSendTransaction
| StepWaitForTransactionReceipt.

Definition step_of (ev : Event) : Step :=
  match ev with
  | EvSwitchChain _ => StepSwitchChain
  | EvGetPublicClient _ => StepGetPublicClient
  | EvGetWalletClient _ => StepGetWalletClient
  | EvGetChainConfigs _ => StepGetChainConfigs
  | EvGetAddresses _ => StepGetAddresses
  | EvCall _ _ => StepCall
  | EvSendTransaction _ _ => StepSendTransaction
  | EvWaitForTransactionReceipt _ _ => StepWaitForTransactionReceipt
  end.

(** The calls of [swap] in the order of lines 187-228, the two calls of
    [getQuote] and [executeSwap] included. *)
Definition swap_call_order : list Step :=
  [ StepSwitchChain; StepGetPublicClient; StepGetWalletClient;
    StepGetChainConfigs; StepGetAddresses; StepCall; StepGetAddresses;
    StepSendTransaction; StepWaitForTransactionReceipt ].

(** The exception an answer carries, if it is one. *)
Definition thrown {A : Type} (r : result A) : option Exception :=
  match r with
  | Ok _ => None
  | Throw e => Some e
  end.

(** The exception with which the environment answered the call [ev] made
    at the history [earlier], if it answered with one. *)
Definition failure_of (env : Env) (earlier : Trace) (ev : Event) : option Exception :=
  match ev with
  | EvSwitchChain c => thrown (wp_switchChain env earlier c)
  | EvGetPublicClient c => thrown (wp_getPublicClient env earlier c)
  | EvGetWalletClient c => thrown (wp_getWalletClient env earlier c)
  | EvGetChainConfigs c => thrown (wp_getChainConfigs env earlier c)
  | EvGetAddresses w => thrown (wc_getAddresses env earlier w)
  | EvCall pc req => thrown (pc_call env earlier pc req)
  | EvSendTransaction w req => thrown (wc_sendTransaction env earlier w req)
  | EvWaitForTransactionReceipt pc h =>
      thrown (pc_waitForTransactionReceipt env earlier pc h)
  end.

(** The exceptions of all the calls of a trace, newest first. *)
Fixpoint failures (env : Env) (tr : Trace) : list Exception :=
  match tr with
  | [] => []
  | ev :: earlier =>
      match failure_of env earlier ev with
      | Some e => e :: failures env earlier
      | None => failures env earlier
      end
  end.

(** The chains named in the calls to the wallet provider. *)
Fixpoint provider_chains (tr : Trace) : list SupportedChain :=
  match tr with
  | [] => []
  | (EvSwitchChain c | EvGetPublicClient c | EvGetWalletClient c
     | EvGetChainConfigs c) :: earlier => c :: provider_chains earlier
  | _ :: earlier => provider_chains earlier
  end.

(* ================================================================== *)
(** ** The action [swapAction]: [handler] and [validate] *)
(* ================================================================== *)

(** [error.message]. *)
Definition Exception_message (e : Exception) : string :=
  match e with
  | RangeError m | TypeError m | Error m | LibraryError m => m
  end.

(** The object the language model is asked for, with the fields the
    handler reads. *)
Record SwapContent : Type := {
  content_chain : SupportedChain;
  inputToken : Address;
  outputToken : Address;
  content_amount : string;
  content_slippage : option Number
}.

(** The [content] of the message of a successful swap. *)
Record SwapReport : Type := {
  success : bool;
  report_hash : Hash;
  report_recipient : option Address;
  report_chain : SupportedChain
}.

(** What the handler hands to [callback]. *)
Record CallbackMessage : Type := {
  text : string;
  content : option SwapReport
}.

(** The collaborators of the handler: [initWalletProvider(runtime)],
    [composeContext], [generateObjectDeprecated] and the optional
    [callback], which sees the messages it was given before. *)
Record HandlerWorld : Type := {
  initWalletProvider : result Env;
  composeContext : result string;
  generateObjectDeprecated : string -> result SwapContent;
  callback : option (list CallbackMessage -> CallbackMessage -> result unit)
}.

(** [if (callback) callback(message)]; the second component is the list
    of the messages handed over so far, newest first. *)
Definition deliver (w : HandlerWorld) (delivered : list CallbackMessage)
           (message : CallbackMessage) : result unit * list CallbackMessage :=
  match callback w with
  | None => (Ok tt, delivered)
  | Some cb => (cb delivered message, message :: delivered)
  end.

(** Lines 270-276. *)
Definition swapOptions (c : SwapContent) : SwapParams :=
  {| chain := content_chain c;
     fromToken := inputToken c;
     toToken := outputToken c;
     amount := content_amount c;
     slippage := content_slippage c |}.

Definition newline : string := String (ascii_of_nat 10) EmptyString.

(** Lines 281-289. *)
Definition successMessage (c : SwapContent) (swapResp : SwapTransaction)
  : CallbackMessage :=
  {| text := ("Successfully swap " ++ amount (swapOptions c) ++ " "
              ++ fromToken (swapOptions c) ++ " tokens to "
              ++ toToken (swapOptions c) ++ newline
              ++ "Transaction Hash: " ++ hash swapResp)%string;
     content := Some {| success := true;
                        report_hash := hash swapResp;
                        report_recipient := recipient swapResp;
                        report_chain := content_chain c |} |}.

(** Line 295. *)
Definition errorMessage (error : Exception) : CallbackMessage :=
  {| text := ("Error: " ++ Exception_message error)%string; content := None |}.

Section Handler.
Context {viem : Viem}.

(** The [try] block of the handler: the swap, then the success message. *)
Definition handler_try (w : HandlerWorld) (walletProvider : Env) (c : SwapContent)
  : result bool * list CallbackMessage * Trace :=
  match run_swap walletProvider (swapOptions c) with
  | (Throw error, trace) => (Throw error, [], trace)
  | (Ok swapResp, trace) =>
      match deliver w [] (successMessage c swapResp) with
      | (Ok _, delivered) => (Ok true, delivered, trace)
      | (Throw error, delivered) => (Throw error, delivered, trace)
      end
  end.

(** [swapAction.handler] (lines 248-299): the result or the exception of
    the handler, the messages handed to the callback, newest first, and
    the calls of the swap. *)
Definition handler (w : HandlerWorld)
  : result bool * list CallbackMessage * Trace :=
  match initWalletProvider w with
  | Throw e => (Throw e, [], [])
  | Ok walletProvider =>
      match composeContext w with
      | Throw e => (Throw e, [], [])
      | Ok swapContext =>
          match generateObjectDeprecated w swapContext with
          | Throw e => (Throw e, [], [])
          | Ok c =>
              match handler_try w walletProvider c with
              | (Ok b, delivered, trace) => (Ok b, delivered, trace)
              | (Throw error, delivered, trace) =>
                  match deliver w delivered (errorMessage error) with
                  | (Ok _, delivered') => (Ok false, delivered', trace)
                  | (Throw e, delivered') => (Throw e, delivered', trace)
                  end
              end
          end
      end
  end.

End Handler.

(** [swapAction.validate] (lines 301-304) on the value of the setting
    [EVM_PRIVATE_KEY]:
    [typeof privateKey === "string" && privateKey.startsWith("0x")]. *)
Definition validate (privateKey : Value) : bool :=
  match privateKey with
  | VString s => String.prefix "0x" s
  | _ => false
  end.

(** More stand-ins, for the runs of the handler and of the edge cases. *)
Module Scenes.

(** A library whose decoder answers with no output at all. *)
Definition silentViem : Viem := {|
  parseEther := Demo.demo_parseEther;
  encodeFunctionData := fun _ functionName args => Demo.demo_coder functionName args;
  decodeFunctionResult := fun _ _ _ => Ok [];
  encodeAbiParameters := fun _ args => Demo.demo_coder "abi" args;
  encodePacked := fun _ args => Demo.demo_coder "packed" args
|}.

(** What the model extracted from "swap 1.0 WETH for USDC". *)
Definition extracted (s : option Number) : SwapContent :=
  {| content_chain := "lightlink"; inputToken := "0xWETH";
     outputToken := "0xUSDC"; content_amount := "1.0"; content_slippage := s |}.

Definition world (env : Env) (s : option Number)
           (cb : option (list CallbackMessage -> CallbackMessage -> result unit))
  : HandlerWorld :=
  {| initWalletProvider := Ok env;
     composeContext := Ok "context";
     generateObjectDeprecated := fun _ => Ok (extracted s);
     callback := cb |}.

(** A callback that accepts everything, and one that throws on the first
    message it is given. *)
Definition quietCallback : list CallbackMessage -> CallbackMessage -> result unit :=
  fun _ _ => Ok tt.

Definition brokenCallback : list CallbackMessage -> CallbackMessage -> result unit :=
  fun delivered _ =>
    match delivered with
    | [] => Throw (Error "callback failed")
    | _ => Ok tt
    end.

(** A request whose amount is not a decimal. *)
Definition badAmount : SwapParams :=
  {| chain := "lightlink"; fromToken := "0xWETH"; toToken := "0xUSDC";
     amount := "one"; slippage := Some Demo.one_percent |}.

End Scenes.

(** An environment in which what follows the quote succeeds: the wallet
    client answers [getAddresses] with [accounts] and every submission
    with the hash [h], and every awaited receipt is [receipt], which
    passes the guard of line 230. *)
Definition settles (env : Env) (accounts : list Address) (h : Hash)
           (receipt : option TransactionReceipt) : Prop :=
  (forall t w, wc_getAddresses env t w = Ok accounts) /\
  (forall t w req, wc_sendTransaction env t w req = Ok h) /\
  (forall t pc h', pc_waitForTransactionReceipt env t pc h' = Ok receipt) /\
  receiptFailed receipt = false.

(* ================================================================== *)
(** ** Binary64 products that are integers *)
(* ================================================================== *)

Lemma shr_1_m (r : shr_record) :
  0 <= shr_m r -> shr_m (shr_1 r) = shr_m r / 2.
Proof.
  destruct r as [m r s]; cbn [shr_m]. intros Hm.
  destruct m as [|p|p]; [reflexivity| |lia].
  destruct p as [p|p|]; cbn [shr_1 shr_m].
  - apply Z.div_unique with (r := 1); lia.
  - apply Z.div_unique with (r := 0); lia.
  - reflexivity.
Qed.

Lemma pow2_xO (p : positive) : 2 ^ Zpos p~0 = 2 ^ Zpos p * 2 ^ Zpos p.
Proof.
  replace (Z.pos p~0) with (Z.pos p + Z.pos p) by lia.
  apply Z.pow_add_r; lia.
Qed.

Lemma pow2_xI (p : positive) : 2 ^ Zpos p~1 = 2 * (2 ^ Zpos p * 2 ^ Zpos p).
Proof.
  replace (Z.pos p~1) with (1 + (Z.pos p + Z.pos p)) by lia.
  rewrite Z.pow_add_r, Z.pow_add_r by lia. reflexivity.
Qed.

Lemma iter_shr_1_m (p : positive) : forall r : shr_record,
  0 <= shr_m r -> shr_m (iter_pos shr_1 p r) = shr_m r / 2 ^ Zpos p.
Proof.
  induction p as [p IH|p IH|]; intros r Hr; cbn [iter_pos].
  - assert (H1 : 0 <= shr_m (shr_1 r)) by (rewrite shr_1_m by lia; apply Z.div_pos; lia).
    assert (H2 : 0 <= shr_m (iter_pos shr_1 p (shr_1 r)))
      by (rewrite IH by lia; apply Z.div_pos; lia).
    rewrite IH, IH, shr_1_m by lia.
    rewrite !Z.div_div by lia.
    rewrite pow2_xI. reflexivity.
  - assert (H2 : 0 <= shr_m (iter_pos shr_1 p r))
      by (rewrite IH by lia; apply Z.div_pos; lia).
    rewrite IH, IH by lia.
    rewrite !Z.div_div by lia.
    rewrite pow2_xO. reflexivity.
  - rewrite shr_1_m by lia. reflexivity.
Qed.

(** The mantissa and exponent after [shr_fexp]: a shift by some [n >= 0]. *)
Lemma shr_fexp_shift (m ex : Z) (l : location) :
  0 <= m ->
  exists n, 0 <= n /\
    snd (shr_fexp 53 1024 m ex l) = ex + n /\
    shr_m (fst (shr_fexp 53 1024 m ex l)) = m / 2 ^ n /\
    (n = 0 \/ ex + n = fexp 53 1024 (Zdigits2 m + ex)).
Proof.
  intros Hm. unfold shr_fexp, shr.
  assert (Hrec : shr_m (shr_record_of_loc m l) = m)
    by (destruct l as [|[| |]]; reflexivity).
  destruct (fexp 53 1024 (Zdigits2 m + ex) - ex) as [|n|n] eqn:Hn; cbn [fst snd].
  - exists 0. rewrite Hrec, Z.div_1_r. repeat split; lia.
  - exists (Zpos n). rewrite iter_shr_1_m, Hrec by (rewrite Hrec; lia).
    repeat split; lia.
  - exists 0. rewrite Hrec, Z.div_1_r. repeat split; lia.
Qed.

Lemma round_nearest_even_bounds (m : Z) (l : location) :
  m <= round_nearest_even m l <= m + 1.
Proof.
  destruct l as [|[| |]]; cbn [round_nearest_even]; try lia.
  destruct (Z.even m); lia.
Qed.

Lemma digits2_pos_size (p : positive) : digits2_pos p = Pos.size p.
Proof. induction p; cbn; congruence. Qed.

(** A number below [2 ^ j] has at most [j] binary digits. *)
Lemma Zdigits2_le (m j : Z) : 0 <= j -> 0 <= m < 2 ^ j -> Zdigits2 m <= j.
Proof.
  intros Hj [Hm Hlt]. destruct m as [|p|p]; cbn [Zdigits2]; try lia.
  rewrite digits2_pos_size.
  pose proof (Pos.size_le p) as Hle.
  apply Pos2Z.pos_le_pos in Hle. rewrite Pos2Z.inj_pow in Hle.
  destruct (Z_lt_le_dec j (Z.pos (Pos.size p))) as [Hgt|]; [|lia].
  exfalso.
  assert (2 ^ (j + 1) <= 2 ^ Z.pos (Pos.size p)) by (apply Z.pow_le_mono_r; lia).
  rewrite Z.pow_add_r in H by lia. lia.
Qed.

Lemma Number_of_Z_10000 :
  Number_of_Z 10000 = S754_finite false 5497558138880000 (-39).
Proof. vm_compute. reflexivity. Qed.

(** A [number] of the unit interval is a mantissa [m] over a power of two
    [2 ^ (- e)] that is at least [m]. *)
Lemma unit_interval_finite (m : positive) (e : Z) :
  Number_in_unit_interval (S754_finite false m e) = true ->
  e <= 0 /\ Zpos m <= 2 ^ (- e).
Proof.
  cbn [Number_in_unit_interval Number_exceeds_one].
  destruct (0 <=? e) eqn:He; intros H; apply negb_true_iff in H.
  - apply Z.leb_le in He. apply Z.ltb_ge in H.
    destruct (Z.eq_dec e 0) as [->|Hne]; [cbn; lia|].
    assert (2 ^ 1 <= 2 ^ e) by (apply Z.pow_le_mono_r; lia).
    change (2 ^ 1) with 2 in *. nia.
  - apply Z.leb_gt in He. apply Z.ltb_ge in H. lia.
Qed.

(** Rounding the exact product [M / 2 ^ E] to binary64: when the result
    is an integer [k], it is the integer nearest to the exact product. *)
Lemma binary_round_aux_integer (M E k : Z) :
  0 < M -> 39 <= E -> M <= 10000 * 2 ^ E ->
  Number_to_integer (binary_round_aux 53 1024 false M (- E) loc_Exact) = Some k ->
  0 <= k /\ exists d, 0 <= d /\ 2 ^ 39 * 2 ^ d <= 2 ^ E /\
    k * 2 ^ E - 2 ^ d <= M < k * 2 ^ E + 2 ^ d.
Proof.
  intros HM HE Hle. unfold binary_round_aux.
  assert (H14 : 10000 < 2 ^ 14) by (cbn; lia).
  assert (HpE : 0 < 2 ^ E) by (apply Z.pow_pos_nonneg; lia).
  destruct (shr_fexp_shift M (- E) loc_Exact) as (n1 & Hn1 & He1 & Hm1 & Hf1); [lia|].
  destruct (shr_fexp 53 1024 M (- E) loc_Exact) as [mrs1 e1]; cbn [fst snd] in *.
  pose proof (round_nearest_even_bounds (shr_m mrs1) (loc_of_shr_record mrs1)) as Hr.
  set (mr := round_nearest_even (shr_m mrs1) (loc_of_shr_record mrs1)) in *.
  assert (Hp1 : 0 < 2 ^ n1) by (apply Z.pow_pos_nonneg; lia).
  assert (Hm1lo : 0 <= shr_m mrs1) by (rewrite Hm1; apply Z.div_pos; lia).
  (* the first exponent stays below -39 *)
  assert (Hn1E : n1 <= E - 39).
  { destruct Hf1 as [->|Hf1]; [lia|].
    assert (Zdigits2 M <= 14 + E).
    { apply Zdigits2_le; [lia|]. rewrite Z.pow_add_r by lia. nia. }
    unfold fexp, emin in Hf1. lia. }
  assert (HEsplit : 2 ^ E = 2 ^ n1 * 2 ^ (E - n1))
    by (rewrite <- Z.pow_add_r by lia; f_equal; lia).
  assert (HpE1 : 0 < 2 ^ (E - n1)) by (apply Z.pow_pos_nonneg; lia).
  assert (Hm1hi : shr_m mrs1 <= 10000 * 2 ^ (E - n1)).
  { rewrite Hm1. apply Z.div_le_upper_bound; [lia|]. nia. }
  assert (Hdiv1 : 2 ^ n1 * shr_m mrs1 <= M < 2 ^ n1 * (shr_m mrs1 + 1)).
  { rewrite Hm1. pose proof (Z.mul_div_le M (2 ^ n1) Hp1).
    pose proof (Z.mul_succ_div_gt M (2 ^ n1) Hp1). lia. }
  destruct (shr_fexp_shift mr e1 loc_Exact) as (n2 & Hn2 & He2 & Hm2 & Hf2); [lia|].
  destruct (shr_fexp 53 1024 mr e1 loc_Exact) as [mrs2 e2]; cbn [fst snd] in *.
  assert (Hp2 : 0 < 2 ^ n2) by (apply Z.pow_pos_nonneg; lia).
  assert (Hn2E : n1 + n2 <= E - 39).
  { destruct Hf2 as [->|Hf2]; [lia|].
    assert (Zdigits2 mr <= 14 + (E - n1)).
    { apply Zdigits2_le; [lia|]. rewrite Z.pow_add_r by lia. nia. }
    unfold fexp, emin in Hf2. lia. }
  assert (HE1split : 2 ^ (E - n1) = 2 ^ n2 * 2 ^ (E - n1 - n2))
    by (rewrite <- Z.pow_add_r by lia; f_equal; lia).
  assert (HpE2 : 0 < 2 ^ (E - n1 - n2)) by (apply Z.pow_pos_nonneg; lia).
  assert (Hdiv2 : 2 ^ n2 * shr_m mrs2 <= mr < 2 ^ n2 * (shr_m mrs2 + 1)).
  { rewrite Hm2. pose proof (Z.mul_div_le mr (2 ^ n2) Hp2).
    pose proof (Z.mul_succ_div_gt mr (2 ^ n2) Hp2). lia. }
  assert (Hsum : 2 ^ (n1 + n2) = 2 ^ n1 * 2 ^ n2) by (apply Z.pow_add_r; lia).
  assert (Hgap : 2 ^ 39 * 2 ^ (n1 + n2) <= 2 ^ E).
  { rewrite <- Z.pow_add_r by lia. apply Z.pow_le_mono_r; lia. }
  assert (Hm2lo : 0 <= shr_m mrs2) by (rewrite Hm2; apply Z.div_pos; lia).
  destruct (shr_m mrs2) as [|p|p] eqn:Hp; [| |lia].
  - (* the product rounds to zero *)
    cbn [Number_to_integer]. intros [= <-]. split; [lia|].
    exists (n1 + n2). repeat split; try lia; nia.
  - destruct (e2 <=? 1024 - 53); [|discriminate].
    cbn [Number_to_integer].
    assert (He2neg : (0 <=? e2) = false) by (apply Z.leb_gt; lia).
    rewrite He2neg.
    destruct (Z.pos p mod 2 ^ (- e2) =? 0) eqn:Hmod; [|discriminate].
    cbn [cond_Zopp]. intros [= <-].
    apply Z.eqb_eq in Hmod.
    replace (- e2) with (E - n1 - n2) in * by lia.
    pose proof (Z.div_mod (Z.pos p) (2 ^ (E - n1 - n2)) ltac:(lia)) as Hk.
    rewrite Hmod, Z.add_0_r in Hk.
    set (k := Z.pos p / 2 ^ (E - n1 - n2)) in *.
    assert (0 <= k) by (apply Z.div_pos; lia).
    split; [assumption|].
    exists (n1 + n2). repeat split; try lia.
    + rewrite HEsplit, HE1split. nia.
    + rewrite HEsplit, HE1split, Hsum. nia.
Qed.

(** The basis points of a slippage of the unit interval: when the double
    product is an integer, it lies between 0 and 10000 and is the exact
    product rounded to the nearest integer. *)
Lemma basis_points_of_unit_fraction (s : Number) (k : Z) :
  Number_in_unit_interval s = true ->
  Number_to_integer (Number_mul s (Number_of_Z 10000)) = Some k ->
  0 <= k <= 10000 /\ Number_scale_round s 10000 = Some k.
Proof.
  intros Hs. rewrite Number_of_Z_10000.
  destruct s as [b|b| |[|] m e]; try discriminate Hs.
  - cbn. intros [= <-]. split; [lia|reflexivity].
  - apply unit_interval_finite in Hs. destruct Hs as [He Hm].
    unfold Number_mul, SFmul. cbn [xorb].
    replace (e + -39) with (- (39 - e)) by lia.
    intros Hk.
    assert (Ha : 0 < 2 ^ (- e)) by (apply Z.pow_pos_nonneg; lia).
    assert (HE : 2 ^ (39 - e) = 2 ^ 39 * 2 ^ (- e))
      by (rewrite <- Z.pow_add_r by lia; f_equal; lia).
    apply binary_round_aux_integer in Hk; [|lia|lia|].
    2:{ rewrite Pos2Z.inj_mul, HE.
        change (Z.pos 5497558138880000) with (10000 * 2 ^ 39). nia. }
    destruct Hk as (Hk0 & d & Hd & Hgap & Hlo & Hhi).
    rewrite Pos2Z.inj_mul, HE in *.
    change (Z.pos 5497558138880000) with (10000 * 2 ^ 39) in *.
    assert (Hpd : 0 < 2 ^ d) by (apply Z.pow_pos_nonneg; lia).
    assert (H39 : 0 < 2 ^ 39) by (cbn; lia).
    assert (Hd' : 2 ^ d <= 2 ^ (- e)) by nia.
    split; [nia|].
    cbn [Number_scale_round cond_Zopp].
    destruct (0 <=? e) eqn:He0.
    + apply Z.leb_le in He0. assert (e = 0) by lia. subst e.
      change (2 ^ (- 0)) with 1 in *. change (2 ^ 0) with 1.
      f_equal. nia.
    + f_equal. symmetry.
      replace (2 ^ (1 - e)) with (2 * 2 ^ (- e))
        by (replace (1 - e) with (1 + - e) by lia;
            rewrite Z.pow_add_r by lia; reflexivity).
      apply Z.div_unique with (r := 2 * (Z.pos m * 10000) + 2 ^ (- e) - 2 * 2 ^ (- e) * k);
        [|lia].
      left. set (a := 2 ^ (- e)) in *. set (c := 2 ^ 39) in *.
      split; nia.
Qed.

(** Bigint division is floor division on non-negative operands. *)
Lemma bigint_division_floor (a b : Z) : 0 <= a -> 0 < b -> Z.quot a b = a / b.
Proof. intros Ha Hb. apply Z.quot_div_nonneg; lia. Qed.

(** The guard of the receipt, read as the specification does. *)
Lemma receiptFailed_absent_or_reverted (receipt : option TransactionReceipt) :
  receipt = None \/ (exists r, receipt = Some r /\ status r = "reverted") ->
  receiptFailed receipt = true.
Proof.
  intros [->|(r & -> & Hr)]; [reflexivity|].
  cbn [receiptFailed]. rewrite Hr. reflexivity.
Qed.

(* ================================================================== *)
(** ** Properties of the pipeline *)
(* ================================================================== *)

(** Unfolding a run into the cascade of its steps, and walking the
    cascade one answer at a time. *)
Ltac unfold_pipeline :=
  unfold run_swap, swap, executeSwap, getQuote, bind, external, lift, ret, throw;
  cbn [fst snd].

Ltac next_step :=
  match goal with
  | |- context [match ?x with Ok _ => _ | Throw _ => _ end] =>
      destruct x eqn:?
  | |- context [if receiptFailed ?r then _ else _] =>
      destruct (receiptFailed r) eqn:?
  end; cbn [fst snd].

Ltac walk_pipeline := unfold_pipeline; repeat next_step.

(** After the walk, the answers met on the way are equations of the
    context; the queries on the trace ask for them again. *)
Ltac recall_answers :=
  unfold quote_outcome, quoted_amount;
  cbn [quote_response awaited_receipt resolved_chain address_answers
       submissions quote_requests];
  repeat match goal with
         | H : ?x = _ |- context [?x] => rewrite H
         end.

(** Reading off the equations between answers left by a walk. *)
Ltac settle_answers :=
  repeat match goal with
         | H : Ok _ = Ok _ |- _ => injection H as ?; subst
         | H : Throw _ = Ok _ |- _ => discriminate H
         | H : Ok _ = Throw _ |- _ => discriminate H
         | H : Some _ = Some _ |- _ => injection H as ?; subst
         | H : match ?o with Some _ => _ | None => _ end = _ |- _ =>
             destruct o eqn:?; cbn in H
         end.

Section SwapProperties.
Context {viem : Viem}.

(** What a successful [routerCallData] is made of. *)
Lemma routerCallData_Ok (fromAddress : option Address) (tokenIn tokenOut : Address)
      (amountIn amountOutMin : Z) (fee : Number) (callData : Hex) :
  routerCallData fromAddress tokenIn tokenOut amountIn amountOutMin fee
    = Ok callData ->
  exists path swapInput,
    encodePacked ["address"; "uint24"; "address"]
      [VString tokenIn; VNumber fee; VString tokenOut] = Ok path /\
    encodeAbiParameters swapInputParameters
      [ Value_of_optional fromAddress; VBigInt amountIn; VBigInt amountOutMin;
        VString path; VBool true ] = Ok swapInput /\
    encodeFunctionData executeAbi "execute"
      [ VString SWAP_EXACT_IN; VArray [ VString swapInput ] ] = Ok callData.
Proof.
  unfold routerCallData.
  destruct (encodePacked _ _) as [path|] eqn:Hpath; [|discriminate].
  destruct (encodeAbiParameters _ _) as [swapInput|] eqn:Hinput; [|discriminate].
  intros H. exists path, swapInput. repeat split; assumption.
Qed.

(** C3. Once a transaction has been submitted and its receipt awaited, a
    receipt that is absent or whose status is "reverted" makes [swap]
    throw [Error("Transaction failed")], the failure the specification
    calls ExecutionRevertedError; no [SwapTransaction] is returned. *)
Theorem swap_throws_on_failed_receipt (env : Env) (params : SwapParams)
        (receipt : option TransactionReceipt) :
  awaited_receipt env (snd (run_swap env params)) = Some (Ok receipt) ->
  receipt = None \/ (exists r, receipt = Some r /\ status r = "reverted") ->
  fst (run_swap env params) = Throw ExecutionRevertedError /\
  (forall tx, fst (run_swap env params) <> Ok tx) /\
  (exists req, submissions (snd (run_swap env params)) = [req]).
Proof.
  walk_pipeline; recall_answers; intros H Hfailed; try discriminate H.
  all: injection H as ->; apply receiptFailed_absent_or_reverted in Hfailed.
  all: try congruence.
  repeat split; [discriminate | eexists; reflexivity].
Qed.

(** C4. When the quote fetch fails, because the read call throws or
    because its response does not decode, [swap] throws that very
    exception, the read call is the last call it made, and no
    transaction is submitted. *)
Theorem failed_quote_aborts_swap (env : Env) (params : SwapParams)
        (e : Exception) :
  quote_outcome env (snd (run_swap env params)) = Some (Throw e) ->
  fst (run_swap env params) = Throw e /\
  submissions (snd (run_swap env params)) = [] /\
  (exists pc req earlier, snd (run_swap env params) = EvCall pc req :: earlier).
Proof.
  walk_pipeline; recall_answers; intros H; try discriminate H.
  all: injection H as <-; repeat split; do 3 eexists; reflexivity.
Qed.


(** C5. Every submission of a run of [swap] is the only one of the run,
    and its data is the encoding of one call of [execute] whose
    [commands] is the one byte [0x00] and whose [inputs] has one entry,
    the ABI encoding of (recipient : address, amountIn : uint256,
    amountOutMin : uint256, path : bytes, payerIsUser : bool) with
    [payerIsUser = true], where [path] packs tokenIn, the fee as uint24
    and tokenOut. *)
Theorem router_call_is_one_exact_input_execute (env : Env) (params : SwapParams)
        (req : SendTransactionParameters) :
  In req (submissions (snd (run_swap env params))) ->
  submissions (snd (run_swap env params)) = [req] /\
  (exists (swapAmountIn amountOutMin : Z) (path swapInput : Hex),
     encodePacked ["address"; "uint24"; "address"]
       [VString (fromToken params); VNumber feeTier; VString (toToken params)]
       = Ok path /\
     encodeAbiParameters
       [ abiParameter None "recipient" "address" [];
         abiParameter None "amountIn" "uint256" [];
         abiParameter None "amountOutMin" "uint256" [];
         abiParameter None "path" "bytes" [];
         abiParameter None "payerIsUser" "bool" [] ]
       [ Value_of_optional (send_account req); VBigInt swapAmountIn;
         VBigInt amountOutMin; VString path; VBool true ] = Ok swapInput /\
     encodeFunctionData executeAbi "execute"
       [ VString "0x00"; VArray [ VString swapInput ] ] = Ok (send_data req)) /\
  Hex_size "0x00" = 1 /\
  map fn_name executeAbi = ["execute"] /\
  map (fun f => map abi_name (inputs f)) executeAbi = [["commands"; "inputs"]] /\
  map (fun f => map abi_type (inputs f)) executeAbi = [["bytes"; "bytes[]"]].
Proof.
  walk_pipeline; recall_answers; cbn [In]; intros H; try contradiction.
  all: destruct H as [<-|[]]; cbn [send_account send_data].
  all: match goal with
       | Hdata : routerCallData _ _ _ ?a ?m _ = Ok _ |- _ =>
           apply routerCallData_Ok in Hdata;
           destruct Hdata as (path & swapInput & Hpath & Hinput & Hcall);
           repeat split; exists a, m, path, swapInput; repeat split; assumption
       end.
Qed.


(** Closing the cases of a walk in which a request is taken from the
    list of the submissions or of the quote fetches of the trace. *)
Ltac pick_request H :=
  cbn [In] in H; try contradiction; destruct H as [<-|[]];
  cbn [send_account send_data call_to call_data].

(** C9. In every run of [swap] the amount of the quote request, the
    amount of the router call and the [amountIn] of the returned
    transaction are all [parseEther(params.amount)], the 18-decimals
    conversion of viem; no token decimals enter the computation. *)
Theorem amountIn_is_parseEther_of_amount (env : Env) (params : SwapParams) :
  (forall req, In req (quote_requests (snd (run_swap env params))) ->
     exists a, parseEther (amount params) = Ok a /\
       encodeFunctionData quoterAbi "quoteExactInputSingle"
         (quoteArgs (fromToken params) (toToken params) a feeTier)
         = Ok (call_data req)) /\
  (forall req, In req (submissions (snd (run_swap env params))) ->
     exists a minOut, parseEther (amount params) = Ok a /\
       routerCallData (send_account req) (fromToken params) (toToken params)
         a minOut feeTier = Ok (send_data req)) /\
  (forall tx, fst (run_swap env params) = Ok tx ->
     parseEther (amount params) = Ok (amountIn tx)).
Proof.
  walk_pipeline; recall_answers.
  all: split; [intros req H; pick_request H; eexists; split;
                 (reflexivity || eassumption)|].
  all: split; [intros req H; pick_request H; do 2 eexists; split;
                 (reflexivity || eassumption)|].
  all: intros tx [= <-] || (intros tx H; discriminate H).
  all: reflexivity.
Qed.

(** C10. The recipient of the router input and the [recipient] of the
    returned transaction are first addresses answered by the wallet
    client: [swap] asks the wallet client twice, the router call carries
    the first address of the second answer and the result the first
    address of the first answer.  A wallet client whose answer does not
    change gives both the same address.  Nothing of the request reaches
    either. *)
Theorem recipient_is_first_wallet_address (env : Env) (params : SwapParams) :
  (forall req, In req (submissions (snd (run_swap env params))) ->
     exists inSwap inExecuteSwap a minOut,
       address_answers env (snd (run_swap env params)) = [inExecuteSwap; inSwap] /\
       send_account req = first_address inExecuteSwap /\
       routerCallData (first_address inExecuteSwap) (fromToken params)
         (toToken params) a minOut feeTier = Ok (send_data req)) /\
  (forall tx, fst (run_swap env params) = Ok tx ->
     exists inSwap inExecuteSwap,
       address_answers env (snd (run_swap env params)) = [inExecuteSwap; inSwap] /\
       recipient tx = first_address inSwap) /\
  ((forall t1 t2 w, wc_getAddresses env t1 w = wc_getAddresses env t2 w) ->
   forall tx req,
     fst (run_swap env params) = Ok tx ->
     In req (submissions (snd (run_swap env params))) ->
     send_account req = recipient tx /\
     exists a minOut,
       routerCallData (recipient tx) (fromToken params) (toToken params)
         a minOut feeTier = Ok (send_data req)).
Proof.
  walk_pipeline; recall_answers.
  all: split; [intros req H; pick_request H; do 4 eexists;
                 repeat split; eassumption || reflexivity|].
  all: split; [intros tx H; try discriminate H; injection H as <-;
                 do 2 eexists; split; reflexivity|].
  all: intros Hstable tx req H; try discriminate H; injection H as <-.
  intros Hreq; pick_request Hreq. cbn [recipient].
  match goal with
  | H1 : wc_getAddresses env ?t1 ?w = Ok ?l1,
    H2 : wc_getAddresses env ?t2 ?w = Ok ?l2 |- _ =>
      assert (l1 = l2) by (rewrite (Hstable t1 t2 w) in H1; congruence)
  end.
  subst. split; [reflexivity|]. do 2 eexists; eassumption.
Qed.

(** The minimum output of a run: what the router call and the result
    carry. *)
Lemma run_minimum (env : Env) (params : SwapParams) :
  (forall req, In req (submissions (snd (run_swap env params))) ->
     exists quotedAmountOut minOut a,
       quoted_amount env (snd (run_swap env params)) = Some quotedAmountOut /\
       slippageAdjustedMinimum quotedAmountOut (slippage params) = Ok minOut /\
       routerCallData (send_account req) (fromToken params) (toToken params)
         a minOut feeTier = Ok (send_data req)) /\
  (forall tx, fst (run_swap env params) = Ok tx ->
     exists quotedAmountOut,
       quoted_amount env (snd (run_swap env params)) = Some quotedAmountOut /\
       slippageAdjustedMinimum quotedAmountOut (slippage params)
         = Ok (minAmountOut tx)).
Proof.
  unfold slippageAdjustedMinimum.
  walk_pipeline; recall_answers.
  all: split; [intros req H; pick_request H; do 3 eexists; recall_answers;
                 repeat split; eassumption || reflexivity|].
  all: intros tx H; try discriminate H; injection H as <-.
  eexists; recall_answers; split; [reflexivity|].
  cbn [minAmountOut amountOut]. assumption.
Qed.

(** With a bigint quote [q] and a slippage whose minimum is [m], the
    router call and the result carry [m]. *)
Lemma run_minimum_of_quote (env : Env) (params : SwapParams) (q m : Z) :
  quoted_amount env (snd (run_swap env params)) = Some (VBigInt q) ->
  slippageAdjustedMinimum (VBigInt q) (slippage params) = Ok m ->
  (forall req, In req (submissions (snd (run_swap env params))) ->
     exists a, routerCallData (send_account req) (fromToken params)
                 (toToken params) a m feeTier = Ok (send_data req)) /\
  (forall tx, fst (run_swap env params) = Ok tx -> minAmountOut tx = m).
Proof.
  intros Hq Hm. destruct (run_minimum env params) as [Hsub Htx]. split.
  - intros req Hreq. destruct (Hsub req Hreq) as (v & m' & a & Hv & Hm' & Hdata).
    rewrite Hq in Hv. injection Hv as <-.
    rewrite Hm in Hm'. injection Hm' as <-. exists a. exact Hdata.
  - intros tx Hrun. destruct (Htx tx Hrun) as (v & Hv & Hm').
    rewrite Hq in Hv. injection Hv as <-.
    rewrite Hm in Hm'. injection Hm' as <-. reflexivity.
Qed.


(** A receipt that passes the guard is followed by the result. *)
Lemma passed_receipt_returns (env : Env) (params : SwapParams)
      (receipt : option TransactionReceipt) :
  awaited_receipt env (snd (run_swap env params)) = Some (Ok receipt) ->
  receiptFailed receipt = false ->
  exists tx, fst (run_swap env params) = Ok tx.
Proof.
  walk_pipeline; recall_answers; intros H Hpassed; try discriminate H.
  all: injection H as ->; try congruence.
  eexists; reflexivity.
Qed.

(** C8. The minimum output is a function of the quoted [amountOut] and
    of the slippage of the request, and of nothing else: in every run
    the router call and the returned transaction carry
    [slippageAdjustedMinimum quotedAmountOut slippage].  A request is
    made of a chain, two tokens, an amount and a slippage; it has no
    field for a minimum output. *)
Theorem minimum_output_is_derived (env : Env) (params : SwapParams) :
  (forall req, In req (submissions (snd (run_swap env params))) ->
     exists quotedAmountOut minOut a,
       quoted_amount env (snd (run_swap env params)) = Some quotedAmountOut /\
       slippageAdjustedMinimum quotedAmountOut (slippage params) = Ok minOut /\
       routerCallData (send_account req) (fromToken params) (toToken params)
         a minOut feeTier = Ok (send_data req)) /\
  (forall tx, fst (run_swap env params) = Ok tx ->
     exists quotedAmountOut,
       quoted_amount env (snd (run_swap env params)) = Some quotedAmountOut /\
       slippageAdjustedMinimum quotedAmountOut (slippage params)
         = Ok (minAmountOut tx)) /\
  (forall p : SwapParams,
     p = {| chain := chain p; fromToken := fromToken p; toToken := toToken p;
            amount := amount p; slippage := slippage p |}).
Proof.
  destruct (run_minimum env params) as [Hsub Htx].
  repeat split; [exact Hsub | exact Htx | ].
  intros []; reflexivity.
Qed.

(** The minimum of step 2 when the basis points are the integer [k]. *)
Lemma slippageAdjustedMinimum_integral (q k : Z) (s : Number) :
  Number_to_integer (Number_mul s (Number_of_Z 10000)) = Some k ->
  slippageAdjustedMinimum (VBigInt q) (Some s) = Ok (q - Z.quot (q * k) 100000).
Proof.
  intros Hk. unfold slippageAdjustedMinimum, BigInt_of_Number.
  cbn [slippageProduct]. rewrite Hk. reflexivity.
Qed.

(** From a fetched quote to the returned transaction: when step 2 yields
    [m], the chain has a router address, the router call encodes and the
    environment settles, [swap] submits once, with [m], and returns. *)
Lemma swap_completes (env : Env) (params : SwapParams) (v : Value) (m : Z)
      (config : Chain) (router : ChainContract) (accounts : list Address)
      (a : Z) (callData : Hex) (h : Hash) (receipt : option TransactionReceipt) :
  quoted_amount env (snd (run_swap env params)) = Some v ->
  slippageAdjustedMinimum v (slippage params) = Ok m ->
  resolved_chain env (snd (run_swap env params)) = Some (Ok config) ->
  router_of config = Some router ->
  parseEther (amount params) = Ok a ->
  routerCallData (hd_error accounts) (fromToken params) (toToken params)
    a m feeTier = Ok callData ->
  settles env accounts h receipt ->
  fst (run_swap env params)
    = Ok {| hash := h; tx_fromToken := fromToken params;
            tx_toToken := toToken params; amountIn := a;
            minAmountOut := m; recipient := hd_error accounts |} /\
  submissions (snd (run_swap env params))
    = [ {| send_chain := config; send_account := hd_error accounts;
           send_to := address router; send_data := callData |} ].
Proof.
  intros Hq Hmin Hconfig Hrouter Hamount Hdata (Haddr & Hsend & Hwait & Hpass).
  revert Hq Hmin Hconfig. unfold slippageAdjustedMinimum.
  unfold_pipeline. rewrite Hamount.
  repeat next_step; unfold quoted_amount; recall_answers;
    intros Hq Hmin Hconfig; try discriminate Hq; try discriminate Hconfig.
  all: repeat match goal with
              | H : wc_getAddresses _ _ _ = _ |- _ => rewrite Haddr in H
              | H : wc_sendTransaction _ _ _ _ = _ |- _ => rewrite Hsend in H
              | H : pc_waitForTransactionReceipt _ _ _ _ = _ |- _ =>
                  rewrite Hwait in H
              end.
  all: unfold router_of, read_property in *; cbn [amountOut] in *.
  all: settle_answers.
  all: try congruence.
  split; congruence.
Qed.


(** X18. Where the rounding does not matter.  For a quoted amount
    [q >= 0] and a slippage [s] of [0, 1] whose product [s * 10000],
    computed in binary64, is an integer [k]: that integer is
    [round(s * 10000)], step 2 yields [m = q - floor(q * k / 100000)],
    which is the specification's formula, [0 <= m <= q], [m = q] when [s]
    is zero, [m] is what the router call and the returned transaction
    carry, and the transaction is returned once the receipt passes the
    guard. *)
Theorem minimum_output_for_integral_basis_points (env : Env)
        (params : SwapParams) (s : Number) (q k : Z) :
  slippage params = Some s ->
  Number_in_unit_interval s = true ->
  Number_to_integer (Number_mul s (Number_of_Z 10000)) = Some k ->
  quoted_amount env (snd (run_swap env params)) = Some (VBigInt q) ->
  0 <= q ->
  exists m,
    m = q - (q * k) / 100000 /\
    Number_scale_round s 10000 = Some k /\
    spec_minAmountOut q s = Some m /\
    slippageAdjustedMinimum (VBigInt q) (Some s) = Ok m /\
    0 <= m <= q /\
    (forall b, s = S754_zero b -> m = q) /\
    (forall req, In req (submissions (snd (run_swap env params))) ->
       exists a, routerCallData (send_account req) (fromToken params)
                   (toToken params) a m feeTier = Ok (send_data req)) /\
    (forall tx, fst (run_swap env params) = Ok tx -> minAmountOut tx = m) /\
    (forall receipt,
       awaited_receipt env (snd (run_swap env params)) = Some (Ok receipt) ->
       receiptFailed receipt = false ->
       exists tx, fst (run_swap env params) = Ok tx /\ minAmountOut tx = m).
Proof.
  intros Hs Hunit Hk Hq Hq0.
  destruct (basis_points_of_unit_fraction s k Hunit Hk) as [Hrange Hround].
  pose proof (slippageAdjustedMinimum_integral q k s Hk) as Hmin.
  rewrite bigint_division_floor in Hmin by nia.
  exists (q - (q * k) / 100000).
  split; [reflexivity|]. split; [exact Hround|].
  split; [unfold spec_minAmountOut; rewrite Hround; reflexivity|].
  split; [exact Hmin|].
  split.
  { assert (0 <= (q * k) / 100000) by (apply Z.div_pos; nia).
    assert ((q * k) / 100000 <= q)
      by (apply Z.div_le_upper_bound; nia).
    lia. }
  split.
  { intros b ->. rewrite Number_of_Z_10000 in Hk. cbn in Hk.
    injection Hk as <-. rewrite Z.mul_0_r. cbn. lia. }
  destruct (run_minimum_of_quote env params q (q - (q * k) / 100000) Hq)
    as [Hsub Htx]; [rewrite Hs; exact Hmin|].
  split; [exact Hsub|]. split; [exact Htx|].
  intros receipt Hreceipt Hpassed.
  destruct (passed_receipt_returns env params receipt Hreceipt Hpassed)
    as [tx Hrun].
  exists tx. split; [exact Hrun | exact (Htx tx Hrun)].
Qed.


(** C7, as the code has it.  On a chain whose metadata lacks the quoter
    or the router entry [swap] throws and submits nothing.  Without the
    quoter it throws before the quote fetch, a [TypeError] once the
    wallet client has answered.  With the quoter and without the router
    the quote is fetched first: once the wallet client has answered and
    the amount and the quote call encode, the read call to the quoter is
    made, and the [TypeError] of the missing router is thrown after the
    quote and step 2 have succeeded. *)
Theorem missing_contract_stops_swap (env : Env) (params : SwapParams)
        (c : Chain) :
  resolved_chain env (snd (run_swap env params)) = Some (Ok c) ->
  quoter_of c = None \/ router_of c = None ->
  (exists e, fst (run_swap env params) = Throw e) /\
  submissions (snd (run_swap env params)) = [] /\
  (quoter_of c = None ->
     quote_requests (snd (run_swap env params)) = [] /\
     forall accounts,
       address_answers env (snd (run_swap env params)) = [Ok accounts] ->
       exists message, fst (run_swap env params) = Throw (TypeError message)) /\
  (forall quotedAmountOut minOut,
     quoted_amount env (snd (run_swap env params)) = Some quotedAmountOut ->
     slippageAdjustedMinimum quotedAmountOut (slippage params) = Ok minOut ->
     fst (run_swap env params)
       = Throw (TypeError "Cannot read properties of undefined (reading 'address')")) /\
  (forall quoter accounts a encodedData,
     quoter_of c = Some quoter ->
     address_answers env (snd (run_swap env params)) = [Ok accounts] ->
     parseEther (amount params) = Ok a ->
     encodeFunctionData quoterAbi "quoteExactInputSingle"
       (quoteArgs (fromToken params) (toToken params) a feeTier) = Ok encodedData ->
     quote_requests (snd (run_swap env params))
       = [ {| call_to := address quoter; call_data := encodedData |} ]).
Proof.
  unfold slippageAdjustedMinimum.
  walk_pipeline; recall_answers; intros H Hlack; try discriminate H.
  all: injection H as ->.
  all: unfold quoter_of, router_of, read_property in *.
  all: destruct (contracts c) as [[quoter router]|];
    cbn [uniswapV3Quoter universalRouter] in *.
  all: repeat match goal with
              | H : Ok _ = Ok _ |- _ => injection H as ?; subst
              | H : Throw _ = Ok _ |- _ => discriminate H
              | H : Ok _ = Throw _ |- _ => discriminate H
              | H : Throw _ = Throw _ |- _ => injection H as ?; subst
              | H : match ?o with Some _ => _ | None => _ end = _ |- _ =>
                  destruct o; cbn in H
              end.
  all: try (destruct Hlack; discriminate).
  all: split; [eexists; reflexivity|].
  all: split; [reflexivity|].
  all: split;
    [ intros Hq;
      first [ discriminate Hq
            | split; [reflexivity|];
              intros accounts Hacc;
              first [discriminate Hacc | eexists; reflexivity] ]
    | split;
      [ intros v m; recall_answers; cbn [amountOut] in *; intros Hv Hm;
        first [ discriminate Hv | discriminate Hm | reflexivity
              | injection Hv as <-; congruence ]
      | intros quoter' accounts amountIn' encodedData
               Hquoter Hacc Hamount Hencode;
        first [ discriminate Hquoter | discriminate Hacc | discriminate Hamount
              | injection Hquoter as <-; injection Hamount as <-;
                first [congruence | idtac] ] ] ].
Qed.

End SwapProperties.

(* ================================================================== *)
(** ** The pipeline on concrete requests *)
(* ================================================================== *)

Import Demo.

(** The worked example of the specification: a quote of [1_000_000] and
    a slippage of 0.01 give 100 basis points and a minimum of [999_000]. *)
Example one_percent_run :
  fst (run (healthyEnv "success") (request (Some one_percent)))
  = Ok {| hash := "0xHASH"; tx_fromToken := "0xWETH"; tx_toToken := "0xUSDC";
          amountIn := 1000000000000000000; minAmountOut := 999000;
          recipient := Some "0xALICE" |}.
Proof. vm_compute. reflexivity. Qed.

(** C1, at the slippage 0.07.  The value lies in [0, 1] and the claim's
    formula gives [993_000] for a quote of [1_000_000]; the code, which
    sets out to calculate that minimum (lines 208-212), computes
    [0.07 * 10000 = 700.0000000000001] in binary64 and hands it to
    [BigInt] unrounded: a [RangeError] is thrown after the quote has been
    fetched, no router call is made and nothing is returned. *)
Lemma seven_percent_slippage_throws :
  Number_in_unit_interval seven_percent = true /\
  quoted_amount (viem := demoViem) (healthyEnv "success")
    (snd (run (healthyEnv "success") (request (Some seven_percent))))
    = Some (VBigInt 1000000) /\
  spec_minAmountOut 1000000 seven_percent = Some 993000 /\
  Number_mul seven_percent (Number_of_Z 10000)
    = S754_finite false 6157265115545601 (-43) /\
  fst (run (healthyEnv "success") (request (Some seven_percent)))
    = Throw (RangeError
        "The number cannot be converted to a BigInt because it is not an integer") /\
  submissions (snd (run (healthyEnv "success") (request (Some seven_percent))))
    = [] /\
  ~ (exists tx,
       fst (run (healthyEnv "success") (request (Some seven_percent))) = Ok tx /\
       Some (minAmountOut tx) = spec_minAmountOut 1000000 seven_percent).
Proof.
  repeat split; try (vm_compute; reflexivity).
  intros (tx & Hrun & _). vm_compute in Hrun. discriminate Hrun.
Qed.


(** C7 fails as stated: on a chain without the router entry the quote
    is fetched before the swap throws. *)
Lemma missing_router_is_found_after_the_quote :
  resolved_chain routerlessEnv
    (snd (run routerlessEnv (request (Some one_percent))))
    = Some (Ok (lightlink (Some quoterContract) None)) /\
  router_of (lightlink (Some quoterContract) None) = None /\
  quote_requests (snd (run routerlessEnv (request (Some one_percent))))
    = [ {| call_to := "0xQUOTER";
           call_data := "quoteExactInputSingle[{tokenIn:0xWETH,tokenOut:0xUSDC,amountIn:1000000000000000000n,fee:3000,sqrtPriceLimitX96:0n,},]" |} ] /\
  fst (run routerlessEnv (request (Some one_percent)))
    = Throw (TypeError "Cannot read properties of undefined (reading 'address')").
Proof. repeat split; vm_compute; reflexivity. Qed.


(** *** The theorems above at concrete requests *)

Lemma minimum_output_for_integral_basis_points_witness :
  slippage (request (Some one_percent)) = Some one_percent /\
  Number_in_unit_interval one_percent = true /\
  Number_to_integer (Number_mul one_percent (Number_of_Z 10000)) = Some 100 /\
  quoted_amount (viem := demoViem) (healthyEnv "success")
    (snd (run (healthyEnv "success") (request (Some one_percent))))
    = Some (VBigInt 1000000) /\
  0 <= 1000000 /\
  exists m, m = 999000 /\
    spec_minAmountOut 1000000 one_percent = Some m /\
    forall tx, fst (run (healthyEnv "success") (request (Some one_percent))) = Ok tx ->
               minAmountOut tx = m.
Proof.
  assert (H1 : slippage (request (Some one_percent)) = Some one_percent)
    by reflexivity.
  assert (H2 : Number_in_unit_interval one_percent = true)
    by (vm_compute; reflexivity).
  assert (H3 : Number_to_integer (Number_mul one_percent (Number_of_Z 10000))
               = Some 100) by (vm_compute; reflexivity).
  assert (H4 : quoted_amount (viem := demoViem) (healthyEnv "success")
                 (snd (run (healthyEnv "success") (request (Some one_percent))))
               = Some (VBigInt 1000000)) by (vm_compute; reflexivity).
  assert (H5 : 0 <= 1000000) by lia.
  repeat (split; [assumption|]).
  destruct (minimum_output_for_integral_basis_points (viem := demoViem)
              (healthyEnv "success") (request (Some one_percent))
              one_percent 1000000 100 H1 H2 H3 H4 H5)
    as (m & Hm & _ & Hspec & _ & _ & _ & _ & Htx & _).
  exists m. repeat split; [exact Hm | exact Hspec | exact Htx].
Defined.


Lemma swap_throws_on_failed_receipt_witness :
  awaited_receipt (healthyEnv "reverted")
    (snd (run (healthyEnv "reverted") (request (Some one_percent))))
    = Some (Ok (Some {| status := "reverted" |})) /\
  (Some {| status := "reverted" |} = None \/
   exists r, Some {| status := "reverted" |} = Some r /\ status r = "reverted") /\
  fst (run (healthyEnv "reverted") (request (Some one_percent)))
    = Throw (Error "Transaction failed").
Proof.
  assert (H1 : awaited_receipt (healthyEnv "reverted")
                 (snd (run (healthyEnv "reverted") (request (Some one_percent))))
               = Some (Ok (Some {| status := "reverted" |})))
    by (vm_compute; reflexivity).
  assert (H2 : Some {| status := "reverted" |} = None \/
               exists r, Some {| status := "reverted" |} = Some r /\
                         status r = "reverted")
    by (right; eexists; split; reflexivity).
  repeat (split; [assumption|]).
  exact (proj1 (swap_throws_on_failed_receipt (viem := demoViem)
                  (healthyEnv "reverted") (request (Some one_percent)) _ H1 H2)).
Defined.

Lemma failed_quote_aborts_swap_witness :
  quote_outcome (viem := demoViem) revertingQuoteEnv
    (snd (run revertingQuoteEnv (request (Some one_percent))))
    = Some (Throw (LibraryError "CallExecutionError")) /\
  fst (run revertingQuoteEnv (request (Some one_percent)))
    = Throw (LibraryError "CallExecutionError") /\
  submissions (snd (run revertingQuoteEnv (request (Some one_percent)))) = [].
Proof.
  assert (H1 : quote_outcome (viem := demoViem) revertingQuoteEnv
                 (snd (run revertingQuoteEnv (request (Some one_percent))))
               = Some (Throw (LibraryError "CallExecutionError")))
    by (vm_compute; reflexivity).
  split; [assumption|].
  destruct (failed_quote_aborts_swap (viem := demoViem) revertingQuoteEnv
              (request (Some one_percent)) _ H1) as (Hrun & Hnone & _).
  split; [exact Hrun | exact Hnone].
Defined.

Lemma router_call_is_one_exact_input_execute_witness :
  In {| send_chain := lightlink (Some quoterContract) (Some routerContract);
        send_account := Some "0xALICE";
        send_to := "0xROUTER";
        send_data := "execute[0x00,[abi[0xALICE,1000000000000000000n,999000n,packed[0xWETH,3000,0xUSDC,],true,],],]" |}
     (submissions (snd (run (healthyEnv "success") (request (Some one_percent))))) /\
  List.length (submissions (snd (run (healthyEnv "success")
                                   (request (Some one_percent))))) = 1%nat.
Proof.
  assert (H1 : In {| send_chain := lightlink (Some quoterContract) (Some routerContract);
                     send_account := Some "0xALICE";
                     send_to := "0xROUTER";
                     send_data := "execute[0x00,[abi[0xALICE,1000000000000000000n,999000n,packed[0xWETH,3000,0xUSDC,],true,],],]" |}
                  (submissions (snd (run (healthyEnv "success")
                                       (request (Some one_percent))))))
    by (vm_compute; left; reflexivity).
  split; [assumption|].
  destruct (router_call_is_one_exact_input_execute (viem := demoViem)
              (healthyEnv "success") (request (Some one_percent)) _ H1)
    as [Hone _].
  unfold run. rewrite Hone. reflexivity.
Defined.

Lemma missing_contract_stops_swap_witness :
  resolved_chain routerlessEnv
    (snd (run routerlessEnv (request (Some one_percent))))
    = Some (Ok (lightlink (Some quoterContract) None)) /\
  (quoter_of (lightlink (Some quoterContract) None) = None \/
   router_of (lightlink (Some quoterContract) None) = None) /\
  submissions (snd (run routerlessEnv (request (Some one_percent)))) = [] /\
  List.length (quote_requests (snd (run routerlessEnv (request (Some one_percent)))))
    = 1%nat /\
  fst (run routerlessEnv (request (Some one_percent)))
    = Throw (TypeError "Cannot read properties of undefined (reading 'address')").
Proof.
  assert (H1 : resolved_chain routerlessEnv
                 (snd (run routerlessEnv (request (Some one_percent))))
               = Some (Ok (lightlink (Some quoterContract) None)))
    by (vm_compute; reflexivity).
  assert (H2 : quoter_of (lightlink (Some quoterContract) None) = None \/
               router_of (lightlink (Some quoterContract) None) = None)
    by (right; reflexivity).
  repeat (split; [assumption|]).
  destruct (missing_contract_stops_swap (viem := demoViem) routerlessEnv
              (request (Some one_percent)) _ H1 H2)
    as (_ & Hnone & _ & Hthrows & Hquote).
  split; [exact Hnone|]. split.
  - unfold run.
    rewrite (Hquote quoterContract ["0xALICE"] 1000000000000000000
               "quoteExactInputSingle[{tokenIn:0xWETH,tokenOut:0xUSDC,amountIn:1000000000000000000n,fee:3000,sqrtPriceLimitX96:0n,},]");
      [reflexivity | reflexivity | vm_compute; reflexivity
      | vm_compute; reflexivity | vm_compute; reflexivity].
  - apply (Hthrows (VBigInt 1000000) 999000); vm_compute; reflexivity.
Defined.

(* ================================================================== *)
(** ** Further properties of [swap] *)
(* ================================================================== *)

(** Asking the environment again for the answers met on a walk, inside
    the replay of the calls of a trace. *)
Ltac recall_calls :=
  cbn [failures failure_of];
  repeat match goal with
         | H : ?x = _ |- context [?x] => rewrite H
         end;
  cbn [thrown In].

(** A request of the one-element list of the submissions or of the
    quote fetches of a walked trace. *)
Ltac the_request H :=
  cbn [In] in H; try contradiction; destruct H as [<-|[]];
  cbn [send_account send_data send_to send_chain call_to call_data].

(** Reading the answers of [read_property] once it is unfolded. *)
Ltac settle_reads :=
  repeat match goal with
         | H : Ok _ = Ok _ |- _ => injection H as ?; subst
         | H : Throw _ = Ok _ |- _ => discriminate H
         | H : Ok _ = Throw _ |- _ => discriminate H
         | H : match ?o with Some _ => _ | None => _ end = _ |- _ =>
             destruct o eqn:?; cbn in H
         end.

Section SwapRuns.
Context {viem : Viem}.

(** X1. The calls of a run are an initial segment of one fixed sequence:
    switchChain, getPublicClient, getWalletClient, getChainConfigs,
    getAddresses, call, getAddresses, sendTransaction,
    waitForTransactionReceipt.  The chain is always switched first, and
    no call is repeated: at most one quote fetch and one submission. *)
Theorem swap_calls_follow_one_order (env : Env) (params : SwapParams) :
  (exists n, (1 <= n)%nat /\
     map step_of (rev (snd (run_swap env params))) = firstn n swap_call_order) /\
  (List.length (quote_requests (snd (run_swap env params))) <= 1)%nat /\
  (List.length (submissions (snd (run_swap env params))) <= 1)%nat.
Proof.
  walk_pipeline; recall_answers; cbn [List.length].
  all: split; [|split; lia].
  all: cbn [rev app map step_of]; unfold swap_call_order.
  all: first [ exists 1%nat; split; [lia|reflexivity]
             | exists 2%nat; split; [lia|reflexivity]
             | exists 3%nat; split; [lia|reflexivity]
             | exists 4%nat; split; [lia|reflexivity]
             | exists 5%nat; split; [lia|reflexivity]
             | exists 6%nat; split; [lia|reflexivity]
             | exists 7%nat; split; [lia|reflexivity]
             | exists 8%nat; split; [lia|reflexivity]
             | exists 9%nat; split; [lia|reflexivity] ].
Qed.

(** X2. No failure of a call is swallowed and nothing is called after
    it: when the environment answers a call of the run with an exception,
    that call is the last one of the run, it is the only one that failed,
    and [swap] throws that very exception. *)
Theorem swap_stops_at_first_failed_call (env : Env) (params : SwapParams)
        (e : Exception) :
  In e (failures env (snd (run_swap env params))) ->
  fst (run_swap env params) = Throw e /\
  exists ev earlier,
    snd (run_swap env params) = ev :: earlier /\
    failure_of env earlier ev = Some e /\
    failures env earlier = [].
Proof.
  walk_pipeline; recall_calls; intros H; try contradiction.
  all: destruct H as [<-|[]]; split; [reflexivity|].
  all: do 2 eexists; split; [reflexivity|]; recall_calls; split; reflexivity.
Qed.

(** X3. [swap] returns a transaction exactly when a receipt was awaited,
    was obtained and passed the status guard. *)
Theorem swap_returns_iff_receipt_passes (env : Env) (params : SwapParams) :
  (exists tx, fst (run_swap env params) = Ok tx) <->
  (exists receipt,
     awaited_receipt env (snd (run_swap env params)) = Some (Ok receipt) /\
     receiptFailed receipt = false).
Proof.
  split.
  - walk_pipeline; recall_answers; intros [tx H]; try discriminate H.
    eexists; split; [reflexivity|assumption].
  - intros (receipt & Hreceipt & Hpassed).
    exact (passed_receipt_returns env params receipt Hreceipt Hpassed).
Qed.

(** X4. The returned transaction reports the hash with which the wallet
    client answered the submission, the receipt awaited last is the
    receipt of that hash, and the two tokens are those of the request. *)
Theorem returned_transaction_is_the_submitted_one (env : Env)
        (params : SwapParams) (tx : SwapTransaction) :
  fst (run_swap env params) = Ok tx ->
  (exists pc w req earlier,
     snd (run_swap env params)
       = EvWaitForTransactionReceipt pc (hash tx)
           :: EvSendTransaction w req :: earlier /\
     wc_sendTransaction env earlier w req = Ok (hash tx)) /\
  tx_fromToken tx = fromToken params /\
  tx_toToken tx = toToken params.
Proof.
  walk_pipeline; intros H; try discriminate H.
  injection H as <-. cbn [hash tx_fromToken tx_toToken].
  split; [|split; reflexivity].
  do 4 eexists; split; [reflexivity|eassumption].
Qed.

(** X5. Where the calls go.  Every call to the wallet provider names the
    chain of the request.  The quote request is addressed to the quoter
    entry of the metadata the provider returned for that chain; the
    submission is addressed to its router entry, carries that metadata as
    its chain and the first wallet address as its account. *)
Theorem calls_go_to_the_contracts_of_the_chain (env : Env) (params : SwapParams) :
  (forall c, In c (provider_chains (snd (run_swap env params))) ->
     c = chain params) /\
  (forall req, In req (quote_requests (snd (run_swap env params))) ->
     exists config quoter,
       resolved_chain env (snd (run_swap env params)) = Some (Ok config) /\
       quoter_of config = Some quoter /\
       call_to req = address quoter) /\
  (forall req, In req (submissions (snd (run_swap env params))) ->
     exists config router,
       resolved_chain env (snd (run_swap env params)) = Some (Ok config) /\
       router_of config = Some router /\
       send_to req = address router /\
       send_chain req = config).
Proof.
  walk_pipeline; recall_answers.
  all: split; [cbn [provider_chains In]; intros c Hc; intuition congruence|].
  all: unfold read_property in *; settle_reads.
  all: split; intros req Hreq; the_request Hreq.
  all: do 2 eexists; recall_answers; unfold quoter_of, router_of.
  all: repeat match goal with
              | H : contracts _ = _ |- _ => rewrite H
              end.
  all: repeat split; eassumption || reflexivity.
Qed.

(** X6. A slippage whose product with 10000 is not an integer, which
    includes the slippage left out of the request ([undefined * 10_000]
    is NaN), never leads to a submission or to a returned transaction;
    once the quote has been fetched and decoded, [swap] throws the
    [RangeError] of [BigInt]. *)
Theorem non_integral_slippage_throws_after_the_quote (env : Env)
        (params : SwapParams) :
  Number_to_integer (slippageProduct (slippage params)) = None ->
  submissions (snd (run_swap env params)) = [] /\
  (forall tx, fst (run_swap env params) <> Ok tx) /\
  (forall quoteOutputs,
     quote_outcome env (snd (run_swap env params)) = Some (Ok quoteOutputs) ->
     fst (run_swap env params)
       = Throw (RangeError
           "The number cannot be converted to a BigInt because it is not an integer")).
Proof.
  intros Hs. unfold_pipeline. unfold BigInt_of_Number. rewrite Hs.
  repeat next_step; recall_answers.
  all: repeat split; try discriminate; try reflexivity.
Qed.

(** X7. A quote whose first output is not a bigint, as when the decoder
    returns no output at all, makes [swap] throw a [TypeError] at the
    bigint arithmetic of step 2 when the slippage product is an integer;
    nothing is submitted. *)
Theorem non_bigint_quote_throws (env : Env) (params : SwapParams)
        (quotedAmountOut : Value) (k : Z) :
  quoted_amount env (snd (run_swap env params)) = Some quotedAmountOut ->
  (forall q, quotedAmountOut <> VBigInt q) ->
  Number_to_integer (slippageProduct (slippage params)) = Some k ->
  fst (run_swap env params)
    = Throw (TypeError "Cannot mix BigInt and other types, use explicit conversions") /\
  submissions (snd (run_swap env params)) = [].
Proof.
  intros Hq Hv Hk. revert Hq.
  assert (Hmin : forall bp, minimumAmountOut quotedAmountOut bp
            = Throw (TypeError
                "Cannot mix BigInt and other types, use explicit conversions")).
  { intros bp. unfold minimumAmountOut, asBigInt.
    destruct quotedAmountOut; try reflexivity. destruct (Hv z eq_refl). }
  unfold_pipeline. unfold BigInt_of_Number. rewrite Hk.
  repeat next_step; unfold quoted_amount; recall_answers;
    intros Hq; try discriminate Hq.
  all: injection Hq as Hq; cbn [amountOut] in *; rewrite Hq, Hmin in *.
  all: try discriminate.
  all: match goal with
       | H : Throw _ = Throw _ |- _ => injection H as <-
       end; split; reflexivity.
Qed.

(** X8. The minimum of step 2 for a quote [q >= 0] and any basis points
    [k]: it is at least [q] when [k <= 0], lies between 0 and [q] when
    [0 <= k <= 100000], and is at most 0 when [k >= 100000]; it never
    increases with [k]. *)
Theorem minimumAmountOut_range (q k : Z) :
  0 <= q ->
  exists m,
    minimumAmountOut (VBigInt q) k = Ok m /\
    (k <= 0 -> q <= m) /\
    (0 <= k <= 100000 -> 0 <= m <= q) /\
    (100000 <= k -> m <= 0) /\
    (forall k' m', k <= k' -> minimumAmountOut (VBigInt q) k' = Ok m' -> m' <= m).
Proof.
  intros Hq. exists (q - Z.quot (q * k) 100000).
  assert (Hmono : forall a b, a <= b -> Z.quot a 100000 <= Z.quot b 100000)
    by (intros a b Hab; apply Z.quot_le_mono; lia).
  assert (H0 : Z.quot 0 100000 = 0) by reflexivity.
  assert (Hall : Z.quot (q * 100000) 100000 = q) by (apply Z.quot_mul; lia).
  split; [reflexivity|].
  split; [|split; [|split]].
  - intros Hk. pose proof (Hmono (q * k) 0 ltac:(nia)). lia.
  - intros Hk. pose proof (Hmono 0 (q * k) ltac:(nia)).
    pose proof (Hmono (q * k) (q * 100000) ltac:(nia)). lia.
  - intros Hk. pose proof (Hmono (q * 100000) (q * k) ltac:(nia)). lia.
  - intros k' m' Hk [= <-].
    pose proof (Hmono (q * k) (q * k') ltac:(nia)). lia.
Qed.

(** X9. An amount that [parseEther] rejects stops [swap] before the
    quote fetch: no read call and no submission is made and nothing is
    returned; when the chain has a quoter address and the wallet client
    has answered, the exception of [parseEther] is the one thrown. *)
Theorem rejected_amount_stops_before_the_quote (env : Env) (params : SwapParams)
        (e : Exception) :
  parseEther (amount params) = Throw e ->
  quote_requests (snd (run_swap env params)) = [] /\
  submissions (snd (run_swap env params)) = [] /\
  (forall tx, fst (run_swap env params) <> Ok tx) /\
  (forall config quoter accounts,
     resolved_chain env (snd (run_swap env params)) = Some (Ok config) ->
     quoter_of config = Some quoter ->
     address_answers env (snd (run_swap env params)) = [Ok accounts] ->
     fst (run_swap env params) = Throw e).
Proof.
  intros Hamount. unfold_pipeline. rewrite Hamount.
  repeat next_step; recall_answers.
  all: repeat split; try discriminate.
  all: intros config quoter accounts Hconfig Hquoter Haccounts;
    try discriminate Hconfig; try discriminate Haccounts; try reflexivity.
  all: injection Hconfig as <-; unfold quoter_of, read_property in *.
  all: settle_reads; congruence.
Qed.

End SwapRuns.

(* ================================================================== *)
(** ** Properties of the action handler and of [validate] *)
(* ================================================================== *)

Section HandlerProperties.
Context {viem : Viem}.

(** A run that returns has made its one submission. *)
Lemma returned_run_has_one_submission (env : Env) (params : SwapParams)
      (tx : SwapTransaction) :
  fst (run_swap env params) = Ok tx ->
  List.length (submissions (snd (run_swap env params))) = 1%nat.
Proof.
  walk_pipeline; recall_answers; intros H; try discriminate H. reflexivity.
Qed.

(** The handler once its three preparations have succeeded. *)
Lemma handler_prepared (w : HandlerWorld) (env : Env) (swapContext : string)
      (c : SwapContent) :
  initWalletProvider w = Ok env ->
  composeContext w = Ok swapContext ->
  generateObjectDeprecated w swapContext = Ok c ->
  handler w =
  match handler_try w env c with
  | (Ok b, delivered, trace) => (Ok b, delivered, trace)
  | (Throw error, delivered, trace) =>
      match deliver w delivered (errorMessage error) with
      | (Ok _, delivered') => (Ok false, delivered', trace)
      | (Throw e, delivered') => (Throw e, delivered', trace)
      end
  end.
Proof. intros Hw Hc Hg. unfold handler. rewrite Hw, Hc, Hg. reflexivity. Qed.

(** X10. With a wallet provider, a context and an extracted content, and
    a callback that is absent or does not throw, the handler does not
    throw: it returns [true] exactly when the swap of the extracted
    request returned a transaction and [false] when the swap threw; the
    calls made are those of that swap, and without a callback nothing is
    reported. *)
Theorem handler_returns_the_outcome_of_the_swap (w : HandlerWorld) (env : Env)
        (swapContext : string) (c : SwapContent) :
  initWalletProvider w = Ok env ->
  composeContext w = Ok swapContext ->
  generateObjectDeprecated w swapContext = Ok c ->
  (forall cb, callback w = Some cb -> forall delivered m, cb delivered m = Ok tt) ->
  (exists b,
     fst (fst (handler w)) = Ok b /\
     (b = true <-> exists tx, fst (run_swap env (swapOptions c)) = Ok tx)) /\
  snd (handler w) = snd (run_swap env (swapOptions c)) /\
  (callback w = None -> snd (fst (handler w)) = []).
Proof.
  intros Hw Hc Hg Hcb. rewrite (handler_prepared w env swapContext c Hw Hc Hg).
  unfold handler_try, deliver.
  destruct (run_swap env (swapOptions c)) as [[tx|e] trace]; cbn [fst snd];
    destruct (callback w) as [cb|] eqn:Hcallback; cbn [fst snd];
    try rewrite (Hcb cb eq_refl); cbn [fst snd].
  all: split; [|split; [reflexivity|intros H; try discriminate H; reflexivity]].
  all: eexists; split; [reflexivity|].
  all: split; intros H; try discriminate H; try reflexivity;
    try (eexists; reflexivity).
  all: destruct H as [tx H]; discriminate H.
Qed.

(** X11. When the swap throws, the callback is handed one message, the
    text "Error: " followed by the message of the exception and no
    content; the handler returns [false] if the callback accepts it and
    throws what the callback throws otherwise. *)
Theorem handler_reports_the_exception_of_the_swap (w : HandlerWorld) (env : Env)
        (swapContext : string) (c : SwapContent)
        (cb : list CallbackMessage -> CallbackMessage -> result unit)
        (e : Exception) :
  initWalletProvider w = Ok env ->
  composeContext w = Ok swapContext ->
  generateObjectDeprecated w swapContext = Ok c ->
  callback w = Some cb ->
  fst (run_swap env (swapOptions c)) = Throw e ->
  snd (fst (handler w))
    = [ {| text := "Error: " ++ Exception_message e; content := None |} ] /\
  (cb [] (errorMessage e) = Ok tt -> fst (fst (handler w)) = Ok false) /\
  (forall e', cb [] (errorMessage e) = Throw e' ->
     fst (fst (handler w)) = Throw e').
Proof.
  intros Hw Hc Hg Hcb. rewrite (handler_prepared w env swapContext c Hw Hc Hg).
  unfold handler_try, deliver. rewrite Hcb.
  destruct (run_swap env (swapOptions c)) as [[tx|e0] trace]; cbn [fst snd];
    intros H; [discriminate H|]. injection H as ->.
  destruct (cb [] (errorMessage e)) as [[]|e']; cbn [fst snd].
  - split; [reflexivity|]. split; [reflexivity|]. intros e' H; discriminate H.
  - split; [reflexivity|]. split; [intros H; discriminate H|].
    intros e'' [= <-]; reflexivity.
Qed.

(** X12. When the swap returns a transaction and the callback accepts
    the report, the handler returns [true] and the callback has been
    handed one message: the text naming the amount, the two tokens and
    the hash, and the content [success = true] with the hash and the
    recipient of the transaction and the chain of the extracted content. *)
Theorem handler_reports_the_transaction (w : HandlerWorld) (env : Env)
        (swapContext : string) (c : SwapContent)
        (cb : list CallbackMessage -> CallbackMessage -> result unit)
        (tx : SwapTransaction) :
  initWalletProvider w = Ok env ->
  composeContext w = Ok swapContext ->
  generateObjectDeprecated w swapContext = Ok c ->
  callback w = Some cb ->
  fst (run_swap env (swapOptions c)) = Ok tx ->
  cb [] (successMessage c tx) = Ok tt ->
  fst (fst (handler w)) = Ok true /\
  snd (fst (handler w))
    = [ {| text := "Successfully swap " ++ content_amount c ++ " "
                   ++ inputToken c ++ " tokens to " ++ outputToken c ++ newline
                   ++ "Transaction Hash: " ++ hash tx;
           content := Some {| success := true;
                              report_hash := hash tx;
                              report_recipient := recipient tx;
                              report_chain := content_chain c |} |} ].
Proof.
  intros Hw Hc Hg Hcb. rewrite (handler_prepared w env swapContext c Hw Hc Hg).
  unfold handler_try, deliver. rewrite Hcb.
  destruct (run_swap env (swapOptions c)) as [[tx0|e] trace]; cbn [fst snd];
    intros H; [|discriminate H]. injection H as ->.
  intros Haccepted. rewrite Haccepted. cbn [fst snd]. split; reflexivity.
Qed.

(** X13. When the swap returns a transaction but the callback throws on
    the report, the exception is caught: the callback is handed a second
    message with the text of that exception, and the handler returns
    [false] if the callback accepts it, although the transaction has been
    submitted and its receipt has passed the guard. *)
Theorem handler_returns_false_when_the_report_throws (w : HandlerWorld)
        (env : Env) (swapContext : string) (c : SwapContent)
        (cb : list CallbackMessage -> CallbackMessage -> result unit)
        (tx : SwapTransaction) (e : Exception) :
  initWalletProvider w = Ok env ->
  composeContext w = Ok swapContext ->
  generateObjectDeprecated w swapContext = Ok c ->
  callback w = Some cb ->
  fst (run_swap env (swapOptions c)) = Ok tx ->
  cb [] (successMessage c tx) = Throw e ->
  snd (fst (handler w)) = [errorMessage e; successMessage c tx] /\
  (cb [successMessage c tx] (errorMessage e) = Ok tt ->
     fst (fst (handler w)) = Ok false) /\
  List.length (submissions (snd (handler w))) = 1%nat.
Proof.
  intros Hw Hc Hg Hcb Hrun Hthrows.
  pose proof (returned_run_has_one_submission env (swapOptions c) tx Hrun) as Hone.
  revert Hrun Hone.
  rewrite (handler_prepared w env swapContext c Hw Hc Hg).
  unfold handler_try, deliver. rewrite Hcb.
  destruct (run_swap env (swapOptions c)) as [[tx0|e0] trace]; cbn [fst snd];
    intros H Hone; [|discriminate H]. injection H as ->.
  rewrite Hthrows. cbn [fst snd].
  destruct (cb [successMessage c tx] (errorMessage e)) as [[]|e']; cbn [fst snd].
  - split; [reflexivity|]. split; [reflexivity|assumption].
  - split; [reflexivity|]. split; [intros H; discriminate H|assumption].
Qed.

(** X14. The handler catches nothing before its [try]: an exception of
    [initWalletProvider], of [composeContext] or of
    [generateObjectDeprecated] leaves the handler as it is; no call of
    the swap is made and the callback is handed nothing. *)
Theorem handler_throws_what_its_preparations_throw (w : HandlerWorld)
        (e : Exception) :
  initWalletProvider w = Throw e \/
  (exists env, initWalletProvider w = Ok env /\
     (composeContext w = Throw e \/
      exists swapContext, composeContext w = Ok swapContext /\
        generateObjectDeprecated w swapContext = Throw e)) ->
  handler w = (Throw e, [], []).
Proof.
  unfold handler.
  intros [Hw|(env & Hw & [Hc|(swapContext & Hc & Hg)])]; rewrite Hw;
    [reflexivity| |]; rewrite Hc; [reflexivity|]. rewrite Hg. reflexivity.
Qed.

End HandlerProperties.

(** X15. [validate] accepts exactly the settings that are strings
    beginning with "0x", whatever follows the prefix; a missing setting
    or one that is not a string is refused. *)
Theorem validate_accepts_0x_prefixed_strings (privateKey : Value) :
  validate privateKey = true <->
  exists rest, privateKey = VString ("0x" ++ rest).
Proof.
  split.
  - destruct privateKey as [| | | |s| |]; try discriminate.
    destruct s as [|c1 [|c2 rest]]; cbn [validate prefix]; try discriminate.
    + destruct (ascii_dec "0" c1); discriminate.
    + destruct (ascii_dec "0" c1) as [<-|]; [|discriminate].
      destruct (ascii_dec "x" c2) as [<-|]; [|discriminate].
      intros _. exists rest. reflexivity.
  - intros [rest ->]. cbn [validate append prefix].
    destruct (ascii_dec "0" "0") as [_|H]; [|destruct (H eq_refl)].
    destruct (ascii_dec "x" "x") as [_|H]; [|destruct (H eq_refl)].
    destruct rest; reflexivity.
Qed.

(** *** The further properties at concrete requests *)

Lemma swap_stops_at_first_failed_call_witness :
  In (LibraryError "CallExecutionError")
     (failures revertingQuoteEnv
        (snd (run revertingQuoteEnv (request (Some one_percent))))) /\
  fst (run revertingQuoteEnv (request (Some one_percent)))
    = Throw (LibraryError "CallExecutionError").
Proof.
  assert (H1 : In (LibraryError "CallExecutionError")
                  (failures revertingQuoteEnv
                     (snd (run revertingQuoteEnv (request (Some one_percent))))))
    by (vm_compute; left; reflexivity).
  split; [assumption|].
  exact (proj1 (swap_stops_at_first_failed_call (viem := demoViem)
                  revertingQuoteEnv (request (Some one_percent)) _ H1)).
Defined.

Lemma returned_transaction_is_the_submitted_one_witness :
  fst (run (healthyEnv "success") (request (Some one_percent)))
    = Ok {| hash := "0xHASH"; tx_fromToken := "0xWETH"; tx_toToken := "0xUSDC";
            amountIn := 1000000000000000000; minAmountOut := 999000;
            recipient := Some "0xALICE" |} /\
  exists pc w req earlier,
    snd (run (healthyEnv "success") (request (Some one_percent)))
      = EvWaitForTransactionReceipt pc "0xHASH" :: EvSendTransaction w req :: earlier /\
    wc_sendTransaction (healthyEnv "success") earlier w req = Ok "0xHASH".
Proof.
  assert (H1 : fst (run (healthyEnv "success") (request (Some one_percent)))
               = Ok {| hash := "0xHASH"; tx_fromToken := "0xWETH";
                       tx_toToken := "0xUSDC"; amountIn := 1000000000000000000;
                       minAmountOut := 999000; recipient := Some "0xALICE" |})
    by (vm_compute; reflexivity).
  split; [assumption|].
  exact (proj1 (returned_transaction_is_the_submitted_one (viem := demoViem)
                  (healthyEnv "success") (request (Some one_percent)) _ H1)).
Defined.

Lemma non_integral_slippage_throws_after_the_quote_witness :
  Number_to_integer (slippageProduct (slippage (request None))) = None /\
  submissions (snd (run (healthyEnv "success") (request None))) = [] /\
  fst (run (healthyEnv "success") (request None))
    = Throw (RangeError
        "The number cannot be converted to a BigInt because it is not an integer").
Proof.
  assert (H1 : Number_to_integer (slippageProduct (slippage (request None))) = None)
    by reflexivity.
  split; [assumption|].
  destruct (non_integral_slippage_throws_after_the_quote (viem := demoViem)
              (healthyEnv "success") (request None) H1) as (Hnone & _ & Hthrow).
  split; [exact Hnone|].
  apply (Hthrow [VBigInt 1000000; VBigInt 0; VNumber (Number_of_Z 0); VBigInt 0]).
  vm_compute. reflexivity.
Defined.

Lemma non_bigint_quote_throws_witness :
  quoted_amount (viem := Scenes.silentViem) (healthyEnv "success")
    (snd (run_swap (viem := Scenes.silentViem) (healthyEnv "success")
            (request (Some one_percent)))) = Some VUndefined /\
  (forall q, VUndefined <> VBigInt q) /\
  Number_to_integer (slippageProduct (slippage (request (Some one_percent))))
    = Some 100 /\
  fst (run_swap (viem := Scenes.silentViem) (healthyEnv "success")
         (request (Some one_percent)))
    = Throw (TypeError "Cannot mix BigInt and other types, use explicit conversions").
Proof.
  assert (H1 : quoted_amount (viem := Scenes.silentViem) (healthyEnv "success")
                 (snd (run_swap (viem := Scenes.silentViem) (healthyEnv "success")
                         (request (Some one_percent)))) = Some VUndefined)
    by (vm_compute; reflexivity).
  assert (H2 : forall q, VUndefined <> VBigInt q) by (intros q H; discriminate H).
  assert (H3 : Number_to_integer
                 (slippageProduct (slippage (request (Some one_percent))))
               = Some 100) by (vm_compute; reflexivity).
  repeat (split; [assumption|]).
  exact (proj1 (non_bigint_quote_throws (viem := Scenes.silentViem)
                  (healthyEnv "success") (request (Some one_percent))
                  VUndefined 100 H1 H2 H3)).
Defined.

Lemma minimumAmountOut_range_witness :
  0 <= 1000000 /\
  exists m, minimumAmountOut (VBigInt 1000000) 200000 = Ok m /\ m <= 0.
Proof.
  assert (H1 : 0 <= 1000000) by lia.
  split; [assumption|].
  destruct (minimumAmountOut_range 1000000 200000 H1)
    as (m & Hm & _ & _ & Hhigh & _).
  exists m. split; [exact Hm | apply Hhigh; lia].
Defined.

Lemma rejected_amount_stops_before_the_quote_witness :
  parseEther (Viem := demoViem) (amount Scenes.badAmount)
    = Throw (LibraryError "InvalidDecimalNumberError") /\
  quote_requests (snd (run (healthyEnv "success") Scenes.badAmount)) = [] /\
  submissions (snd (run (healthyEnv "success") Scenes.badAmount)) = [].
Proof.
  assert (H1 : parseEther (Viem := demoViem) (amount Scenes.badAmount)
               = Throw (LibraryError "InvalidDecimalNumberError"))
    by (vm_compute; reflexivity).
  split; [assumption|].
  destruct (rejected_amount_stops_before_the_quote (viem := demoViem)
              (healthyEnv "success") Scenes.badAmount _ H1)
    as (Hquote & Hsub & _).
  split; [exact Hquote | exact Hsub].
Defined.

Lemma handler_returns_the_outcome_of_the_swap_witness :
  (forall cb,
     callback (Scenes.world (healthyEnv "reverted") (Some one_percent)
                 (Some Scenes.quietCallback)) = Some cb ->
     forall delivered m, cb delivered m = Ok tt) /\
  exists b,
    fst (fst (handler (viem := demoViem)
                (Scenes.world (healthyEnv "reverted") (Some one_percent)
                   (Some Scenes.quietCallback)))) = Ok b /\
    (b = true <->
     exists tx, fst (run (healthyEnv "reverted")
                       (swapOptions (Scenes.extracted (Some one_percent)))) = Ok tx).
Proof.
  assert (H1 : forall cb,
             callback (Scenes.world (healthyEnv "reverted") (Some one_percent)
                         (Some Scenes.quietCallback)) = Some cb ->
             forall delivered m, cb delivered m = Ok tt)
    by (intros cb [= <-] delivered m; reflexivity).
  split; [assumption|].
  exact (proj1 (handler_returns_the_outcome_of_the_swap (viem := demoViem)
                  (Scenes.world (healthyEnv "reverted") (Some one_percent)
                     (Some Scenes.quietCallback))
                  (healthyEnv "reverted") "context"
                  (Scenes.extracted (Some one_percent))
                  eq_refl eq_refl eq_refl H1)).
Defined.

Lemma handler_reports_the_exception_of_the_swap_witness :
  fst (run (healthyEnv "reverted")
         (swapOptions (Scenes.extracted (Some one_percent))))
    = Throw (Error "Transaction failed") /\
  snd (fst (handler (viem := demoViem)
              (Scenes.world (healthyEnv "reverted") (Some one_percent)
                 (Some Scenes.quietCallback))))
    = [ {| text := "Error: Transaction failed"; content := None |} ].
Proof.
  assert (H1 : fst (run (healthyEnv "reverted")
                      (swapOptions (Scenes.extracted (Some one_percent))))
               = Throw (Error "Transaction failed")) by (vm_compute; reflexivity).
  split; [assumption|].
  exact (proj1 (handler_reports_the_exception_of_the_swap (viem := demoViem)
                  (Scenes.world (healthyEnv "reverted") (Some one_percent)
                     (Some Scenes.quietCallback))
                  (healthyEnv "reverted") "context"
                  (Scenes.extracted (Some one_percent)) Scenes.quietCallback
                  (Error "Transaction failed")
                  eq_refl eq_refl eq_refl eq_refl H1)).
Defined.

Lemma handler_reports_the_transaction_witness :
  fst (run (healthyEnv "success")
         (swapOptions (Scenes.extracted (Some one_percent))))
    = Ok {| hash := "0xHASH"; tx_fromToken := "0xWETH"; tx_toToken := "0xUSDC";
            amountIn := 1000000000000000000; minAmountOut := 999000;
            recipient := Some "0xALICE" |} /\
  fst (fst (handler (viem := demoViem)
              (Scenes.world (healthyEnv "success") (Some one_percent)
                 (Some Scenes.quietCallback)))) = Ok true.
Proof.
  assert (H1 : fst (run (healthyEnv "success")
                      (swapOptions (Scenes.extracted (Some one_percent))))
               = Ok {| hash := "0xHASH"; tx_fromToken := "0xWETH";
                       tx_toToken := "0xUSDC"; amountIn := 1000000000000000000;
                       minAmountOut := 999000; recipient := Some "0xALICE" |})
    by (vm_compute; reflexivity).
  split; [assumption|].
  exact (proj1 (handler_reports_the_transaction (viem := demoViem)
                  (Scenes.world (healthyEnv "success") (Some one_percent)
                     (Some Scenes.quietCallback))
                  (healthyEnv "success") "context"
                  (Scenes.extracted (Some one_percent)) Scenes.quietCallback _
                  eq_refl eq_refl eq_refl eq_refl H1 eq_refl)).
Defined.

Lemma handler_returns_false_when_the_report_throws_witness :
  fst (run (healthyEnv "success")
         (swapOptions (Scenes.extracted (Some one_percent))))
    = Ok {| hash := "0xHASH"; tx_fromToken := "0xWETH"; tx_toToken := "0xUSDC";
            amountIn := 1000000000000000000; minAmountOut := 999000;
            recipient := Some "0xALICE" |} /\
  fst (fst (handler (viem := demoViem)
              (Scenes.world (healthyEnv "success") (Some one_percent)
                 (Some Scenes.brokenCallback)))) = Ok false /\
  List.length (submissions
                 (snd (handler (viem := demoViem)
                         (Scenes.world (healthyEnv "success") (Some one_percent)
                            (Some Scenes.brokenCallback))))) = 1%nat.
Proof.
  assert (H1 : fst (run (healthyEnv "success")
                      (swapOptions (Scenes.extracted (Some one_percent))))
               = Ok {| hash := "0xHASH"; tx_fromToken := "0xWETH";
                       tx_toToken := "0xUSDC"; amountIn := 1000000000000000000;
                       minAmountOut := 999000; recipient := Some "0xALICE" |})
    by (vm_compute; reflexivity).
  split; [assumption|].
  destruct (handler_returns_false_when_the_report_throws (viem := demoViem)
              (Scenes.world (healthyEnv "success") (Some one_percent)
                 (Some Scenes.brokenCallback))
              (healthyEnv "success") "context"
              (Scenes.extracted (Some one_percent)) Scenes.brokenCallback _
              (Error "callback failed")
              eq_refl eq_refl eq_refl eq_refl H1 eq_refl)
    as (_ & Hfalse & Hone).
  split; [apply Hfalse; reflexivity | exact Hone].
Defined.

Lemma handler_throws_what_its_preparations_throw_witness :
  initWalletProvider
    {| initWalletProvider := Throw (Error "EVM_PRIVATE_KEY is missing");
       composeContext := Ok "context";
       generateObjectDeprecated := fun _ => Ok (Scenes.extracted None);
       callback := Some Scenes.quietCallback |}
    = Throw (Error "EVM_PRIVATE_KEY is missing") /\
  handler (viem := demoViem)
    {| initWalletProvider := Throw (Error "EVM_PRIVATE_KEY is missing");
       composeContext := Ok "context";
       generateObjectDeprecated := fun _ => Ok (Scenes.extracted None);
       callback := Some Scenes.quietCallback |}
    = (Throw (Error "EVM_PRIVATE_KEY is missing"), [], []).
Proof.
  split; [reflexivity|].
  apply (handler_throws_what_its_preparations_throw (viem := demoViem)).
  left. reflexivity.
Defined.

(* ================================================================== *)
(** ** Integer literals, and slippages below zero *)
(* ================================================================== *)

Lemma iter_xO_value (n p : positive) :
  Zpos (Pos.iter xO p n) = Zpos p * 2 ^ Zpos n.
Proof.
  induction n as [|n IH] using Pos.peano_ind.
  - cbn [Pos.iter]. lia.
  - rewrite Pos.iter_succ. rewrite Pos2Z.inj_succ, Z.pow_succ_r by lia. lia.
Qed.

Lemma iter_xO_digits (n p : positive) :
  digits2_pos (Pos.iter xO p n) = (digits2_pos p + n)%positive.
Proof.
  induction n as [|n IH] using Pos.peano_ind.
  - cbn [Pos.iter digits2_pos]. lia.
  - rewrite Pos.iter_succ. cbn [digits2_pos]. rewrite IH. lia.
Qed.

(** A mantissa of 53 digits with an exponent in the normal range is its
    own rounding. *)
Lemma binary_round_aux_canonical (s : bool) (m : positive) (e : Z) :
  Zpos (digits2_pos m) = 53 -> -1074 <= e <= 971 ->
  binary_round_aux 53 1024 s (Zpos m) e loc_Exact = S754_finite s m e.
Proof.
  intros Hd He. unfold binary_round_aux.
  assert (Hshr : shr_fexp 53 1024 (Zpos m) e loc_Exact
                 = ({| shr_m := Zpos m; shr_r := false; shr_s := false |}, e)).
  { unfold shr_fexp, shr. cbn [Zdigits2]. rewrite Hd.
    replace (fexp 53 1024 (53 + e) - e) with 0
      by (unfold fexp, emin; lia).
    reflexivity. }
  rewrite Hshr. cbn [shr_m loc_of_shr_record round_nearest_even].
  rewrite Hshr. cbn [shr_m].
  replace (e <=? 1024 - 53) with true by (symmetry; apply Z.leb_le; lia).
  reflexivity.
Qed.

Lemma digits2_pos_bounds (p : positive) :
  2 ^ (Zpos (digits2_pos p) - 1) <= Zpos p < 2 ^ Zpos (digits2_pos p).
Proof.
  rewrite digits2_pos_size.
  pose proof (Pos.size_gt p) as Hgt. pose proof (Pos.size_le p) as Hle.
  apply Pos2Z.pos_lt_pos in Hgt. apply Pos2Z.pos_le_pos in Hle.
  rewrite Pos2Z.inj_pow in *.
  replace (Z.pos (Pos.size p)) with (1 + (Z.pos (Pos.size p) - 1)) in Hle at 1 by lia.
  rewrite Z.pow_add_r in Hle by lia. change (2 ^ 1) with 2 in Hle. lia.
Qed.

Lemma Number_of_positive (s : bool) (p : positive) :
  Zpos p < 2 ^ 53 ->
  exists m e, binary_round 53 1024 s p 0 = S754_finite s m e /\
              -52 <= e <= 0 /\ Zpos m = Zpos p * 2 ^ (- e).
Proof.
  intros Hp. unfold binary_round.
  pose proof (digits2_pos_bounds p) as [Hlo Hhi].
  assert (Hd : Zpos (digits2_pos p) <= 53).
  { destruct (Z_lt_le_dec 53 (Zpos (digits2_pos p))) as [Hgt|]; [|lia].
    assert (2 ^ 53 <= 2 ^ (Zpos (digits2_pos p) - 1))
      by (apply Z.pow_le_mono_r; lia). lia. }
  replace (fexp 53 1024 (Z.pos (digits2_pos p) + 0))
    with (Zpos (digits2_pos p) - 53) by (unfold fexp, emin; lia).
  unfold shl_align.
  destruct (Z.pos (digits2_pos p) - 53 - 0) as [|n|n] eqn:Hn; try lia.
  - rewrite binary_round_aux_canonical by lia.
    exists p, 0. repeat split; lia.
  - rewrite binary_round_aux_canonical.
    + exists (Pos.iter xO p n), (Zpos (digits2_pos p) - 53).
      split; [reflexivity|]. split; [lia|].
      rewrite iter_xO_value. f_equal. f_equal. lia.
    + rewrite iter_xO_digits. lia.
    + lia.
Qed.

(** X16. [BigInt(n)] of an integer literal [n] below [2 ^ 53] in
    absolute value is [n]: the number that denotes [n] is integral and
    converts back to [n].  This is the case of the literals [100_000],
    [10_000] and [3000] of the source. *)
Theorem integer_literal_round_trip (z : Z) :
  - 2 ^ 53 < z < 2 ^ 53 ->
  BigInt_of_Number (Number_of_Z z) = Ok z.
Proof.
  intros Hz. unfold BigInt_of_Number, Number_of_Z, binary_normalize.
  destruct z as [|p|p]; [reflexivity| |].
  - destruct (Number_of_positive false p ltac:(lia)) as (m & e & -> & He & Hm).
    cbn [Number_to_integer cond_Zopp]. rewrite Hm.
    destruct (0 <=? e) eqn:He0.
    + apply Z.leb_le in He0. replace e with 0 by lia. cbn. f_equal. lia.
    + assert (0 < 2 ^ (- e)) by (apply Z.pow_pos_nonneg; lia).
      rewrite Z.mod_mul, Z.div_mul by lia. reflexivity.
  - destruct (Number_of_positive true p ltac:(lia)) as (m & e & -> & He & Hm).
    cbn [Number_to_integer cond_Zopp]. rewrite Hm.
    destruct (0 <=? e) eqn:He0.
    + apply Z.leb_le in He0. replace e with 0 by lia. cbn. f_equal. lia.
    + assert (0 < 2 ^ (- e)) by (apply Z.pow_pos_nonneg; lia).
      rewrite Z.mod_mul, Z.div_mul by lia. reflexivity.
Qed.

(** A product that rounds with a negative sign is no positive integer. *)
Lemma negative_round_is_not_positive (M e k : Z) (l : location) :
  Number_to_integer (binary_round_aux 53 1024 true M e l) = Some k -> k <= 0.
Proof.
  unfold binary_round_aux.
  destruct (shr_fexp 53 1024 M e l) as [mrs1 e1].
  destruct (shr_fexp 53 1024 _ e1 loc_Exact) as [mrs2 e2].
  destruct (shr_m mrs2) as [|m|m]; try discriminate.
  - cbn. intros [= <-]. lia.
  - destruct (e2 <=? 1024 - 53); [|discriminate].
    unfold Number_to_integer, cond_Zopp.
    destruct (0 <=? e2) eqn:He2.
    + intros Hk. apply Z.leb_le in He2.
      assert (0 < 2 ^ e2) by (apply Z.pow_pos_nonneg; lia).
      assert (0 <= Z.pos m * 2 ^ e2) by (apply Z.mul_nonneg_nonneg; lia).
      assert (k = - (Z.pos m * 2 ^ e2)) by congruence.
      lia.
    + destruct (_ =? 0); [|discriminate]. intros Hk.
      apply Z.leb_gt in He2.
      assert (0 <= Z.pos m / 2 ^ (- e2))
        by (apply Z.div_pos; [lia | apply Z.pow_pos_nonneg; lia]).
      assert (k = - (Z.pos m / 2 ^ (- e2))) by congruence.
      lia.
Qed.

Lemma negative_slippage_basis_points (s : Number) (k : Z) :
  Number_is_negative s = true ->
  Number_to_integer (Number_mul s (Number_of_Z 10000)) = Some k ->
  k <= 0.
Proof.
  rewrite Number_of_Z_10000.
  destruct s as [b|[|]| |[|] m e]; try discriminate; intros _.
  unfold Number_mul, SFmul. cbn [xorb]. apply negative_round_is_not_positive.
Qed.

Section NegativeSlippage.
Context {viem : Viem}.

(** X17. A slippage below zero is carried through: when its product with
    10000 is an integer [k], then [k <= 0], and for a quote [q >= 0] the
    minimum [m] of step 2 is at least [q]; the router call and the
    returned transaction carry [m], and where the chain has a router
    address, the router call encodes and the environment settles, the
    swap is submitted and returned with [m]. *)
Theorem negative_slippage_raises_the_minimum (env : Env) (params : SwapParams)
        (s : Number) (q k : Z) :
  slippage params = Some s ->
  Number_is_negative s = true ->
  Number_to_integer (Number_mul s (Number_of_Z 10000)) = Some k ->
  quoted_amount env (snd (run_swap env params)) = Some (VBigInt q) ->
  0 <= q ->
  k <= 0 /\
  exists m,
    q <= m /\
    slippageAdjustedMinimum (VBigInt q) (Some s) = Ok m /\
    (forall req, In req (submissions (snd (run_swap env params))) ->
       exists a, routerCallData (send_account req) (fromToken params)
                   (toToken params) a m feeTier = Ok (send_data req)) /\
    (forall tx, fst (run_swap env params) = Ok tx -> minAmountOut tx = m) /\
    (forall config router accounts a callData h receipt,
       resolved_chain env (snd (run_swap env params)) = Some (Ok config) ->
       router_of config = Some router ->
       parseEther (amount params) = Ok a ->
       routerCallData (hd_error accounts) (fromToken params) (toToken params)
         a m feeTier = Ok callData ->
       settles env accounts h receipt ->
       fst (run_swap env params)
         = Ok {| hash := h; tx_fromToken := fromToken params;
                 tx_toToken := toToken params; amountIn := a;
                 minAmountOut := m; recipient := hd_error accounts |} /\
       submissions (snd (run_swap env params))
         = [ {| send_chain := config; send_account := hd_error accounts;
                send_to := address router; send_data := callData |} ]).
Proof.
  intros Hs Hneg Hk Hq Hq0.
  pose proof (negative_slippage_basis_points s k Hneg Hk) as Hk0.
  pose proof (slippageAdjustedMinimum_integral q k s Hk) as Hmin.
  split; [exact Hk0|].
  exists (q - Z.quot (q * k) 100000).
  split.
  { assert (Z.quot (q * k) 100000 <= Z.quot 0 100000)
      by (apply Z.quot_le_mono; nia).
    change (Z.quot 0 100000) with 0 in *. lia. }
  split; [exact Hmin|].
  destruct (run_minimum_of_quote env params q (q - Z.quot (q * k) 100000) Hq)
    as [Hsub Htx]; [rewrite Hs; exact Hmin|].
  split; [exact Hsub|]. split; [exact Htx|].
  intros config router accounts a callData h receipt
         Hconfig Hrouter Hamount Hdata Hsettles.
  apply (swap_completes env params (VBigInt q) _ config router accounts a
           callData h receipt Hq); try assumption.
  rewrite Hs. exact Hmin.
Qed.

End NegativeSlippage.

Lemma integer_literal_round_trip_witness :
  - 2 ^ 53 < 100000 < 2 ^ 53 /\
  BigInt_of_Number (Number_of_Z 100000) = Ok 100000.
Proof.
  assert (H1 : - 2 ^ 53 < 100000 < 2 ^ 53) by (cbn; lia).
  split; [assumption|]. exact (integer_literal_round_trip 100000 H1).
Defined.

Lemma negative_slippage_raises_the_minimum_witness :
  slippage (request (Some (Number_of_Z (-1)))) = Some (Number_of_Z (-1)) /\
  Number_is_negative (Number_of_Z (-1)) = true /\
  Number_to_integer (Number_mul (Number_of_Z (-1)) (Number_of_Z 10000))
    = Some (-10000) /\
  quoted_amount (viem := demoViem) (healthyEnv "success")
    (snd (run (healthyEnv "success") (request (Some (Number_of_Z (-1))))))
    = Some (VBigInt 1000000) /\
  0 <= 1000000 /\
  fst (run (healthyEnv "success") (request (Some (Number_of_Z (-1)))))
    = Ok {| hash := "0xHASH"; tx_fromToken := "0xWETH"; tx_toToken := "0xUSDC";
            amountIn := 1000000000000000000; minAmountOut := 1100000;
            recipient := Some "0xALICE" |}.
Proof.
  assert (H1 : slippage (request (Some (Number_of_Z (-1))))
               = Some (Number_of_Z (-1))) by reflexivity.
  assert (H2 : Number_is_negative (Number_of_Z (-1)) = true)
    by (vm_compute; reflexivity).
  assert (H3 : Number_to_integer
                 (Number_mul (Number_of_Z (-1)) (Number_of_Z 10000))
               = Some (-10000)) by (vm_compute; reflexivity).
  assert (H4 : quoted_amount (viem := demoViem) (healthyEnv "success")
                 (snd (run (healthyEnv "success")
                         (request (Some (Number_of_Z (-1))))))
               = Some (VBigInt 1000000)) by (vm_compute; reflexivity).
  assert (H5 : 0 <= 1000000) by lia.
  repeat (split; [assumption|]).
  destruct (negative_slippage_raises_the_minimum (viem := demoViem)
              (healthyEnv "success") (request (Some (Number_of_Z (-1))))
              (Number_of_Z (-1)) 1000000 (-10000) H1 H2 H3 H4 H5)
    as (_ & m & _ & Hmin & _ & _ & Hgoes).
  vm_compute in Hmin. injection Hmin as <-.
  refine (proj1 (Hgoes (lightlink (Some quoterContract) (Some routerContract))
                   routerContract ["0xALICE"] 1000000000000000000
                   "execute[0x00,[abi[0xALICE,1000000000000000000n,1100000n,packed[0xWETH,3000,0xUSDC,],true,],],]"
                   "0xHASH" (Some {| status := "success" |}) _ _ _ _ _)).
  - vm_compute. reflexivity.
  - reflexivity.
  - vm_compute. reflexivity.
  - vm_compute. reflexivity.
  - unfold settles. repeat split; intros; reflexivity.
Defined.
